(** * ira-analysis: heat-pump adoption scenario, simulation and aggregation

    A shallow embedding of the two scripts that carry the scenario logic
    ([pull_resstock_data.py] only fetches and saves the metadata):

    - [analyze_single_home.py]: the S3 path resolver
      [get_correct_timeseries_path] and the stress-test step of [main]
      (the two derived columns [hp_added_load] and [total_load_after]);
    - [app.py]: the date window of [load_data], the dashboard calculations
      (addressable market, number of converts, the two aggregate curves,
      the peak metrics) and the high-priority table.

    Numbers.  The scripts compute on binary64 values inside pandas.  The
    embedding uses exact rationals for the finite values and [None] for a
    cell that holds no number (pandas' NaN: a missing reading, or the
    result of an operation that has no finite value).  Rounding of the
    binary64 operations is not represented: every statement below is about
    the arithmetic the scripts denote, not about its last bit. *)

From Stdlib Require Import List String Ascii Bool Arith ZArith QArith Qround Qminmax Lia.
From Stdlib Require Import Sorted.
From Stdlib Require DecimalString.
Import ListNotations.

Open Scope Q_scope.

(** ** Cells and element-wise arithmetic *)

(** One float64 cell of a pandas column. *)
Definition reading : Type := option Q.

(** Binary operations propagate a missing operand, as NaN does. *)
Definition lift2 (f : Q -> Q -> Q) (x y : reading) : reading :=
  match x, y with
  | Some a, Some b => Some (f a b)
  | _, _ => None
  end.

Definition radd : reading -> reading -> reading := lift2 Qplus.
Definition rsub : reading -> reading -> reading := lift2 Qminus.
Definition rmul : reading -> reading -> reading := lift2 Qmult.

(** A quotient by zero is not a finite number either. *)
Definition rdiv (x y : reading) : reading :=
  match x, y with
  | Some a, Some b => if Qeq_bool b 0 then None else Some (a / b)
  | _, _ => None
  end.

(** [x > 0] on floats: false when [x] is NaN. *)
Definition rgt0 (x : reading) : bool :=
  match x with
  | Some a => negb (Qle_bool a 0)
  | None => false
  end.

(** A Python [int] used as an operand of a float operation. *)
Definition of_int (n : Z) : reading := Some (inject_Z n).

(** Python's [int(x)] on a finite float: truncation toward zero. *)
Definition py_int (q : Q) : Z := Z.quot (Qnum q) (Zpos (Qden q)).

(** [Series.max()] with the default [skipna=True]: the largest present
    value, NaN when there is none. *)
Fixpoint series_max (s : list reading) : reading :=
  match s with
  | [] => None
  | x :: tl =>
      match x, series_max tl with
      | Some a, Some b => Some (Qmax a b)
      | Some a, None => Some a
      | None, m => m
      end
  end.

(** Extensional equality of cells and of columns: rationals are compared
    by value, a missing cell only equals a missing cell. *)
Definition reading_eq (x y : reading) : Prop :=
  match x, y with
  | Some a, Some b => a == b
  | None, None => True
  | _, _ => False
  end.

Definition curve_eq (c d : list reading) : Prop := Forall2 reading_eq c d.

(** "Does not decrease": both missing, or both present and ordered. *)
Definition reading_le (x y : reading) : Prop :=
  match x, y with
  | Some a, Some b => a <= b
  | None, None => True
  | _, _ => False
  end.

(** Outcome of a Python call: it returns, or it leaves with an exception
    (named by its class; [sys.exit] is [SystemExit]). *)
Inductive py_result (A : Type) : Type :=
| Returned (a : A)
| Raised (exn : string).

Arguments Returned {A} a.
Arguments Raised {A} exn.

(** ** The interval frame of [analyze_single_home.py]

    [df_ts] is one frame indexed by [timestamp]; its columns are read
    row by row, so the channels of a row always belong to one timestamp. *)

Record IntervalRow : Type := mkIntervalRow {
  ts : Z;                      (* index: 'timestamp', seconds since 1970 *)
  electricity_total : reading; (* 'out.electricity.total.energy_consumption' *)
  natural_gas_heating : reading (* 'out.natural_gas.heating.energy_consumption' *)
}.

(** The frame after step 6, which is also what [archetype_profile.csv]
    holds and what [app.py] reads back as [df_archetype]. *)
Record ProfileRow : Type := mkProfileRow {
  timestamp : Z;
  electricity : reading;       (* 'out.electricity.total.energy_consumption' *)
  gas_heating : reading;       (* 'out.natural_gas.heating.energy_consumption' *)
  hp_added_load : reading;     (* 'hp_added_load' *)
  total_load_after : reading   (* 'total_load_after' *)
}.

(** ** Text columns and [Series.str.contains]

    A text is held as its byte string.  The patterns of the scripts are
    alternations of plain words ([Gas|Propane], [100|200], [Gas]), so a
    pattern is the list of its alternatives. *)

Open Scope string_scope.

(** One cell of a text column; [None] is NaN. *)
Definition cell : Type := option string.

Definition is_upper (c : ascii) : bool :=
  let n := nat_of_ascii c in (65 <=? n)%nat && (n <=? 90)%nat.

(** The characters 0 to 9. *)
Definition is_digit (c : ascii) : bool :=
  let n := nat_of_ascii c in (48 <=? n)%nat && (n <=? 57)%nat.

(** Case folding of the letters A-Z, which is what [re.IGNORECASE] does to
    a text of one-byte characters.  (Python also lets two characters from
    outside that range, U+017F and U+212A, stand for "s" and "k"; a text is
    held here by its bytes, so they are not letters.) *)
Definition fold_case (c : ascii) : ascii :=
  if is_upper c then ascii_of_nat (nat_of_ascii c + 32) else c.

Fixpoint fold_string (s : string) : string :=
  match s with
  | EmptyString => EmptyString
  | String c s' => String (fold_case c) (fold_string s')
  end.

Definition char_match (case : bool) (p c : ascii) : bool :=
  if case then Ascii.eqb p c else Ascii.eqb (fold_case p) (fold_case c).

(** The word [pat] matches at the start of [s]. *)
Fixpoint match_here (case : bool) (pat s : string) : bool :=
  match pat, s with
  | EmptyString, _ => true
  | String _ _, EmptyString => false
  | String p pat', String c s' => char_match case p c && match_here case pat' s'
  end.

(** [re.search]: scan the positions of [s] from the left, trying the
    alternatives in order at each one. *)
Fixpoint re_search (case : bool) (alts : list string) (s : string) : bool :=
  existsb (fun pat => match_here case pat s) alts
  || match s with
     | EmptyString => false
     | String _ s' => re_search case alts s'
     end.

(** [col.str.contains(pat, case=..., na=...)] on one cell. *)
Definition str_contains (alts : list string) (case na : bool) (c : cell) : bool :=
  match c with
  | Some s => re_search case alts s
  | None => na
  end.

(** What "the text contains the word" means, independently of the scan:
    the word occurs between some prefix and some suffix. *)
Definition occurs_in (word text : string) : Prop :=
  exists pre post, text = pre ++ word ++ post.

(** The same up to the case of letters. *)
Definition occurs_in_nocase (word text : string) : Prop :=
  occurs_in (fold_string word) (fold_string text).

(** ** The metadata frame *)

(** A row gives a cell to column names; a name it does not list reads NaN. *)
Definition Row : Type := list (string * cell).

Fixpoint get (r : Row) (col : string) : cell :=
  match r with
  | [] => None
  | (k, v) :: r' => if String.eqb k col then v else get r' col
  end.

Record DataFrame : Type := mkDataFrame {
  columns : list string;
  rows : list Row
}.

(** [pd.DataFrame()] *)
Definition empty_frame : DataFrame := {| columns := []; rows := [] |}.

(** [col in df.columns] *)
Definition has_column (df : DataFrame) (col : string) : bool :=
  existsb (String.eqb col) (columns df).

(** [df.empty]: some axis has length zero. *)
Definition is_empty (df : DataFrame) : bool :=
  match columns df, rows df with
  | [], _ => true
  | _, [] => true
  | _, _ => false
  end.

(** [df[mask]]: same columns, the rows the mask keeps, in order. *)
Definition select_rows (df : DataFrame) (mask : Row -> bool) : DataFrame :=
  {| columns := columns df; rows := filter mask (rows df) |}.

(** [df[cols]]: the listed columns of every row. *)
Definition select_columns (df : DataFrame) (cols : list string) : DataFrame :=
  {| columns := cols;
     rows := map (fun r => map (fun c => (c, get r c)) cols) (rows df) |}.

(** [df.head(n)] *)
Definition head (n : nat) (df : DataFrame) : DataFrame :=
  {| columns := columns df; rows := firstn n (rows df) |}.

(** What the dashboard writes above the table. *)
Inductive st_call : Type :=
| st_success (body : string)
| st_info (body : string)
| st_warning (body : string).

(** ** The file system and the log of a run *)

(** The file system the resolver is handed: what exists, what a folder lists. *)
Record FileSystem : Type := mkFileSystem {
  fs_exists : string -> bool;
  fs_ls : string -> list string
}.

(** What a run does to the outside, in order. *)
Inductive effect : Type :=
| Exists (path : string)          (* fs.exists(path) *)
| Ls (path : string)              (* fs.ls(path) *)
| Print (line : string)           (* print(line) *)
| PrintList (items : list string) (* print(a list) *).

(** A computation reads the file system and appends to the log. *)
Definition IO (A : Type) : Type := FileSystem -> list effect -> A * list effect.

Definition ret {A} (a : A) : IO A := fun _ log => (a, log).

Definition bind {A B} (m : IO A) (k : A -> IO B) : IO B :=
  fun fs log => let (a, log') := m fs log in k a fs log'.

Notation "x <- m ;; k" := (bind m (fun x => k))
  (at level 61, m at next level, right associativity).
Notation "m ;;; k" := (bind m (fun _ => k))
  (at level 61, right associativity).

Definition io_exists (path : string) : IO bool :=
  fun fs log => (fs_exists fs path, (log ++ [Exists path])%list).

Definition io_ls (path : string) : IO (list string) :=
  fun fs log => (fs_ls fs path, (log ++ [Ls path])%list).

Definition io_print (line : string) : IO unit :=
  fun _ log => (tt, (log ++ [Print line])%list).

Definition io_print_list (items : list string) : IO unit :=
  fun _ log => (tt, (log ++ [PrintList items])%list).

Definition run {A} (m : IO A) (fs : FileSystem) : A * list effect := m fs [].

(** ** [analyze_single_home.py] *)

Module analyze_single_home.

Definition BASE_BUCKET : string :=
  "oedi-data-lake/nrel-pds-building-stock/end-use-load-profiles-for-us-building-stock/2021/resstock_amy2018_release_1".

Definition BY_STATE_ROOT : string :=
  BASE_BUCKET ++ "/timeseries_individual_buildings/by_state".

(** Option A: [state=SC / upgrade=0] *)
Definition path_a (root_path state_abbr : string) : string :=
  root_path ++ "/state=" ++ state_abbr ++ "/upgrade=0".

(** Option B: [upgrade=0 / state=SC] *)
Definition path_b (root_path state_abbr : string) : string :=
  root_path ++ "/upgrade=0/state=" ++ state_abbr.

Definition get_correct_timeseries_path (root_path state_abbr : string)
  : IO (option string) :=
  a <- io_exists (path_a root_path state_abbr) ;;
  if a then ret (Some (path_a root_path state_abbr))
  else
    b <- io_exists (path_b root_path state_abbr) ;;
    if b then ret (Some (path_b root_path state_abbr))
    else
      io_print ("⚠️ Could not find standard path. Listing " ++ root_path ++ ":") ;;;
      listing <- io_ls root_path ;;
      io_print_list (firstn 5 listing) ;;;
      ret None.

(** Step 3 of [main]: [if not ts_path: print(...); sys.exit(1)]. *)
Definition locate_timeseries : IO (py_result string) :=
  io_print (String "010" "🔍 Auto-detecting S3 folder structure...") ;;;
  ts_path <- get_correct_timeseries_path BY_STATE_ROOT "SC" ;;
  match ts_path with
  | Some (String c p) =>
      io_print ("✅ Verified Path: " ++ String c p) ;;;
      ret (Returned (String c p))
  | _ =>
      io_print "❌ Critical Error: Could not locate timeseries folder structure." ;;;
      ret (Raised "SystemExit")
  end.

(** [COP = 3.0 # Efficiency of new Heat Pump] *)
Definition COP : Q := 3.

(** Step 6 on one row:
    [hp_added_load = gas / COP], [total_load_after = electricity + hp_added_load]. *)
Definition stress_row (r : IntervalRow) : ProfileRow :=
  let added := rdiv (natural_gas_heating r) (Some COP) in
  {| timestamp := ts r;
     electricity := electricity_total r;
     gas_heating := natural_gas_heating r;
     hp_added_load := added;
     total_load_after := radd (electricity_total r) added |}.

(** Step 6 on the frame: two column assignments, no check, no raise. *)
Definition stress_test (df_ts : list IntervalRow) : list ProfileRow :=
  map stress_row df_ts.

(** The step as a call: it always returns the extended frame. *)
Definition run_simulation (df_ts : list IntervalRow) : py_result (list ProfileRow) :=
  Returned (stress_test df_ts).

(** *** Steps 1 to 5 of [main] *)

(** A row of the metadata as [main] reads it: its text cells and its
    numeric cells, each under the name of its column. *)
Record MetaRow : Type := mkMetaRow {
  text_cells : Row;
  number_cells : list (string * reading)
}.

Record MetaFrame : Type := mkMetaFrame {
  meta_columns_of : list string;
  meta_rows : list MetaRow
}.

Fixpoint get_number (cells : list (string * reading)) (col : string) : reading :=
  match cells with
  | [] => None
  | (k, v) :: rest => if String.eqb k col then v else get_number rest col
  end.

Definition meta_has (df_meta : MetaFrame) (col : string) : bool :=
  existsb (String.eqb col) (meta_columns_of df_meta).

(** [column > bound] on one cell: false on NaN. *)
Definition exceeds (x : reading) (bound : Q) : bool :=
  match x with
  | Some v => negb (Qle_bool v bound)
  | None => false
  end.

(** The mask of step 2:
    [str.contains('Gas', na=False, case=False) & (sqft > 2500)]. *)
Definition is_target (heat_col sqft_col : string) (r : MetaRow) : bool :=
  str_contains ["Gas"] false false (get (text_cells r) heat_col)
  && exceeds (get_number (number_cells r) sqft_col) 2500.

(** Step 2: the column names, the targets, the first of them.  Reading a
    column the frame does not have is a [KeyError]; no target is
    [sys.exit(1)]. *)
Definition select_target (df_meta : MetaFrame) : py_result MetaRow :=
  if negb (meta_has df_meta "bldg_id") then Raised "KeyError"
  else
    let heat_col :=
      if meta_has df_meta "in.heating_fuel"
      then "in.heating_fuel" else "in.hvac_heating_type" in
    let sqft_col :=
      if meta_has df_meta "in.sqft" then "in.sqft" else "in.geometry_floor_area" in
    if negb (meta_has df_meta heat_col) then Raised "KeyError"
    else if negb (meta_has df_meta sqft_col) then Raised "KeyError"
    else
      match filter (is_target heat_col sqft_col) (meta_rows df_meta) with
      | [] => Raised "SystemExit"
      | target_home :: _ => Returned target_home
      end.

(** [astype(str)] on one cell of [bldg_id]. *)
Definition astype_str (c : cell) : string :=
  match c with
  | Some s => s
  | None => "nan"
  end.

(** The bucket: its file system, what a glob pattern matches, what a
    parquet file holds. *)
Record Bucket : Type := mkBucket {
  bucket_fs : FileSystem;
  bucket_glob : string -> list string;
  bucket_parquet : string -> list IntervalRow
}.

(** [main] up to [df_ts.to_csv("archetype_profile.csv")]: the outcome is the
    frame that is saved.  [metadata_csv] is [None] when the file is not
    found.  Plotting lies between the simulation and the save and is not
    represented. *)
Definition main (metadata_csv : option MetaFrame) (s3 : Bucket)
  : py_result (list ProfileRow) :=
  match metadata_csv with
  | None => Raised "SystemExit"
  | Some df_meta =>
      match select_target df_meta with
      | Raised exn => Raised exn
      | Returned target_home =>
          let bldg_id := astype_str (get (text_cells target_home) "bldg_id") in
          match fst (run locate_timeseries (bucket_fs s3)) with
          | Raised exn => Raised exn
          | Returned ts_path =>
              match bucket_glob s3 (ts_path ++ "/*" ++ bldg_id ++ "*.parquet") with
              | [] => Raised "SystemExit"
              | remote_file :: _ =>
                  Returned (stress_test (bucket_parquet s3 remote_file))
              end
          end
      end
  end.

End analyze_single_home.

(** ** [app.py] *)

Module app.

(** Midnight of 2018-01-16 and of 2018-01-19, in seconds since 1970. *)
Definition start_date : Z := 1516060800.
Definition end_date : Z := 1516320000.

(** [load_data]: the profile read back from [archetype_profile.csv],
    restricted to [(timestamp >= start_date) & (timestamp <= end_date)]. *)
Definition load_data (profile : list ProfileRow) : list ProfileRow :=
  filter (fun r => (start_date <=? timestamp r)%Z && (timestamp r <=? end_date)%Z)
         profile.

(** ['in.heating_fuel' if 'in.heating_fuel' in county_homes.columns
     else 'in.hvac_heating_type'] *)
Definition heat_col (county_homes : DataFrame) : string :=
  if has_column county_homes "in.heating_fuel"
  then "in.heating_fuel" else "in.hvac_heating_type".

(** [.str.contains('Gas|Propane', case=False, na=False)] *)
Definition is_gas_heated (col : string) (r : Row) : bool :=
  str_contains ["Gas"; "Propane"] false false (get r col).

(** The addressable market: the gas-heated rows, or [pd.DataFrame()] when
    the frame has no heating column. *)
Definition gas_homes (county_homes : DataFrame) : DataFrame :=
  let col := heat_col county_homes in
  if has_column county_homes col
  then select_rows county_homes (is_gas_heated col)
  else empty_frame.

(** [total_gas_homes = len(gas_homes)] *)
Definition total_gas_homes (county_homes : DataFrame) : Z :=
  Z.of_nat (List.length (rows (gas_homes county_homes))).

Open Scope Q_scope.

(** [Series + Series] on two columns of one frame: position by position. *)
Definition series_add (a b : list reading) : list reading :=
  map (fun p => radd (fst p) (snd p)) (combine a b).

Section Calculations.

(** The divisor written [1000] in the script (kWh to MWh). *)
Variable unit_scale : Q.

(** [int(total_gas_homes * fraction)], the fraction being
    [adoption_rate / 100] in the script. *)
Definition num_converts (total_gas_homes : Z) (adoption_fraction : Q) : Z :=
  py_int (inject_Z total_gas_homes * adoption_fraction).

(** [(df_archetype[electricity] * total_gas_homes) / 1000] *)
Definition baseline_curve (df_archetype : list ProfileRow) (total_gas_homes : Z)
  : list reading :=
  map (fun r => rdiv (rmul (electricity r) (of_int total_gas_homes)) (Some unit_scale))
      df_archetype.

(** [(df_archetype['hp_added_load'] * num_converts) / 1000] *)
Definition added_curve (df_archetype : list ProfileRow) (converts : Z)
  : list reading :=
  map (fun r => rdiv (rmul (hp_added_load r) (of_int converts)) (Some unit_scale))
      df_archetype.

(** [baseline_curve + added_curve] *)
Definition new_total_curve (df_archetype : list ProfileRow)
           (total_gas_homes : Z) (adoption_fraction : Q) : list reading :=
  series_add (baseline_curve df_archetype total_gas_homes)
             (added_curve df_archetype (num_converts total_gas_homes adoption_fraction)).

Definition old_peak (df_archetype : list ProfileRow) (total_gas_homes : Z) : reading :=
  series_max (baseline_curve df_archetype total_gas_homes).

Definition new_peak (df_archetype : list ProfileRow)
           (total_gas_homes : Z) (adoption_fraction : Q) : reading :=
  series_max (new_total_curve df_archetype total_gas_homes adoption_fraction).

(** [new_peak - old_peak] *)
Definition peak_growth (df_archetype : list ProfileRow)
           (total_gas_homes : Z) (adoption_fraction : Q) : reading :=
  rsub (new_peak df_archetype total_gas_homes adoption_fraction)
       (old_peak df_archetype total_gas_homes).

(** [(peak_growth / old_peak) * 100 if old_peak > 0 else 0] *)
Definition pct_of (growth peak : reading) : reading :=
  if rgt0 peak then rmul (rdiv growth peak) (Some 100) else Some 0.

Definition pct_increase (df_archetype : list ProfileRow)
           (total_gas_homes : Z) (adoption_fraction : Q) : reading :=
  pct_of (peak_growth df_archetype total_gas_homes adoption_fraction)
         (old_peak df_archetype total_gas_homes).

End Calculations.

(** The script's own instance: the slider gives an integer percentage and
    the divisor is 1000. *)
Definition slider_fraction (adoption_rate : Z) : Q := inject_Z adoption_rate / 100.

Definition dashboard_converts (total_gas_homes adoption_rate : Z) : Z :=
  num_converts total_gas_homes (slider_fraction adoption_rate).

Definition dashboard_new_total (df : list ProfileRow) (total_gas_homes adoption_rate : Z)
  : list reading :=
  new_total_curve 1000 df total_gas_homes (slider_fraction adoption_rate).

Open Scope string_scope.

(** [.str.contains('100|200', regex=True, na=False)] *)
Definition is_high_income (r : Row) : bool :=
  str_contains ["100"; "200"] true false (get r "in.income").

Definition show_nat (n : nat) : string :=
  DecimalString.NilEmpty.string_of_uint (Nat.to_uint n).

(** The risk table: the frame that is shown and the notice that goes
    with it. *)
Definition high_risk (gas : DataFrame) : DataFrame * st_call :=
  if has_column gas "in.income" then
    let hr := select_rows gas is_high_income in
    if negb (is_empty hr) then
      (hr, st_success ("Identified " ++ show_nat (List.length (rows hr))
                       ++ " high-income households for targeting."))
    else
      (gas, st_info "No high-income households found in this subset.")
  else
    (gas, st_warning "⚠️ Income data not available for this region. Showing all eligible gas homes.").

Definition display_cols : list string :=
  ["bldg_id"; "in.city"; "in.sqft"; "in.vintage"; "in.income"; "in.heating_fuel"].

(** [high_risk[valid_cols].head(50)] *)
Definition displayed (gas : DataFrame) : DataFrame :=
  let hr := fst (high_risk gas) in
  let valid_cols := filter (has_column hr) display_cols in
  head 50 (select_columns hr valid_cols).

(** *** The sidebar and the page *)

(** [pd.Series.dropna()]: the present values, in order. *)
Fixpoint dropna (column : list cell) : list string :=
  match column with
  | [] => []
  | Some v :: rest => v :: dropna rest
  | None :: rest => dropna rest
  end.

(** [pd.Series.unique()]: each value once, in order of first appearance. *)
Fixpoint unique (values : list string) : list string :=
  match values with
  | [] => []
  | v :: rest => v :: filter (fun w => negb (String.eqb v w)) (unique rest)
  end.

(** [sorted(...)] on strings: ascending in the order of their characters.
    An ascending arrangement of values is unique, so insertion gives the
    list Python's sort gives. *)
Fixpoint insert_sorted (v : string) (l : list string) : list string :=
  match l with
  | [] => [v]
  | w :: rest => if String.leb v w then v :: l else w :: insert_sorted v rest
  end.

Fixpoint sorted (values : list string) : list string :=
  match values with
  | [] => []
  | v :: rest => insert_sorted v (sorted rest)
  end.

(** [sorted(df_meta['in.county'].dropna().unique())] *)
Definition counties (df_meta : DataFrame) : list string :=
  sorted (unique (dropna (map (fun r => get r "in.county") (rows df_meta)))).

(** [st.sidebar.selectbox(label, options)]: the option the user picked, by
    its position; [None] when there is nothing to pick. *)
Definition selectbox (options : list string) (picked : nat) : option string :=
  nth_error options picked.

(** [column == value] on one cell; false on NaN and against [None]. *)
Definition cell_is (c : cell) (value : option string) : bool :=
  match c, value with
  | Some s, Some v => String.eqb s v
  | _, _ => false
  end.

(** [df_meta[df_meta['in.county'] == selected_county]] *)
Definition county_homes (df_meta : DataFrame) (selected_county : option string)
  : DataFrame :=
  select_rows df_meta (fun r => cell_is (get r "in.county") selected_county).




End app.

(** ** [pull_resstock_data.py] *)

(** [df[cols]] with a list of names: [KeyError] when one of them is not a
    column. *)
Definition getitem_columns (df : DataFrame) (cols : list string)
  : py_result DataFrame :=
  if forallb (has_column df) cols
  then Returned (select_columns df cols)
  else Raised "KeyError".

Module pull_resstock_data.

Definition OUTPUT_FILE : string := "sc_resstock_metadata.csv".

(** [df.rename(columns={'index': 'bldg_id'})] *)
Definition rename_index (df : DataFrame) : DataFrame :=
  let renamed := fun c : string => if String.eqb c "index" then "bldg_id" else c in
  {| columns := map renamed (columns df);
     rows := map (map (fun kv : string * cell => (renamed (fst kv), snd kv)))
                 (rows df) |}.

(** Lines 47-57, on the frame as [reset_index] left it: rename ['index']
    when there is no ['bldg_id'], then give up when there is still none. *)
Definition recover_bldg_id (df : DataFrame) : py_result DataFrame :=
  let df' :=
    if has_column df "index" && negb (has_column df "bldg_id")
    then rename_index df else df in
  if negb (has_column df' "bldg_id") then Raised "SystemExit" else Returned df'.

Definition cols_to_keep : list string :=
  [ "bldg_id"; "in.city"; "in.county"; "in.sqft"; "in.vintage";
    "in.heating_fuel"; "in.hvac_cooling_type"; "in.income"; "in.usage_level" ].

(** One turn of the loop over [cols_to_keep]. *)
Definition keep_step (df : DataFrame) (final_cols : list string) (c : string)
  : list string :=
  if has_column df c then (final_cols ++ [c])%list
  else if String.eqb c "in.sqft" && has_column df "in.geometry_floor_area"
  then (final_cols ++ ["in.geometry_floor_area"])%list
  else if String.eqb c "in.heating_fuel" && has_column df "in.hvac_heating_type"
  then (final_cols ++ ["in.hvac_heating_type"])%list
  else final_cols.

Definition final_cols (df : DataFrame) : list string :=
  fold_left (keep_step df) cols_to_keep [].

(** [main].  [old_file] is what [OUTPUT_FILE] held before the run, if it
    existed; [dataset] is the outcome of reading the table and resetting its
    index, any exception of which ends in [sys.exit(1)].  The result is the
    outcome of the run and what [OUTPUT_FILE] holds after it. *)
Definition main (old_file : option DataFrame) (dataset : py_result DataFrame)
  : py_result unit * option DataFrame :=
  let on_disk : option DataFrame :=
    match old_file with
    | Some _ => None          (* os.remove(OUTPUT_FILE) *)
    | None => None
    end in
  match dataset with
  | Raised _ => (Raised "SystemExit", on_disk)
  | Returned df =>
      match recover_bldg_id df with
      | Raised exn => (Raised exn, on_disk)
      | Returned df' =>
          match getitem_columns df' (final_cols df') with
          | Raised exn => (Raised exn, on_disk)
          | Returned df_clean => (Returned tt, Some df_clean)   (* to_csv *)
          end
      end
  end.

End pull_resstock_data.

(** ** The formulas the calculations are checked against *)

Open Scope Q_scope.

(** [x * n / s] on a present cell, missing on a missing one. *)
Definition scaled (x : reading) (n : Z) (s : Q) : reading :=
  match x with
  | Some v => Some (v * inject_Z n / s)
  | None => None
  end.

(** [100 * g / p] on a present growth, missing on a missing one. *)
Definition percent_of (g : reading) (p : Q) : reading :=
  match g with
  | Some v => Some (100 * v / p)
  | None => None
  end.

(** [e + g / 3] when both readings are present. *)
Definition substituted (e g : reading) : reading :=
  match e, g with
  | Some x, Some y => Some (x + y / 3)
  | _, _ => None
  end.

(** [g / COP] on a present reading. *)
Definition over_cop (g : reading) : reading :=
  match g with
  | Some v => Some (v / analyze_single_home.COP)
  | None => None
  end.

(** What one turn of the column loop of [pull_resstock_data.main] adds for
    the name [c]: the name itself, else the other name of the floor area or
    of the heating fuel, else nothing. *)
Definition chosen_column (df : DataFrame) (c : string) : option string :=
  if has_column df c then Some c
  else if String.eqb c "in.sqft" && has_column df "in.geometry_floor_area"
  then Some "in.geometry_floor_area"
  else if String.eqb c "in.heating_fuel" && has_column df "in.hvac_heating_type"
  then Some "in.hvac_heating_type"
  else None.

Definition option_list {A : Type} (o : option A) : list A :=
  match o with
  | Some a => [a]
  | None => []
  end.

(** A list of names in ascending order. *)
Definition ascending : list string -> Prop :=
  Sorted (fun v w => String.leb v w = true).




(** A saved profile row without its two derived columns. *)
Definition measured (p : ProfileRow) : IntervalRow :=
  mkIntervalRow (timestamp p) (electricity p) (gas_heating p).

(** ** Sample inputs *)

(** Two intervals, at 00:00 and 00:15 of 2018-01-16: electricity 1.0 and
    2.0, gas heating 3.0 and 0.0. *)
Definition two_rows : list IntervalRow :=
  [ mkIntervalRow 1516060800 (Some 1) (Some 3);
    mkIntervalRow 1516061700 (Some 2) (Some 0) ].

(** An archetype whose second interval has the larger heating load. *)
Definition heating_peak_rows : list ProfileRow :=
  [ mkProfileRow 1516060800 (Some 2) (Some 3) (Some 1) (Some 3);
    mkProfileRow 1516061700 (Some 1) (Some 12) (Some 4) (Some 5) ].

(** One interval with a negative electricity reading and no gas-heating
    reading. *)
Definition faulty_rows : list IntervalRow :=
  [ mkIntervalRow 0 (Some (-1)) None ].

(** Some reading of the frame is negative. *)
Definition has_negative (df_ts : list IntervalRow) : Prop :=
  exists r v, In r df_ts /\ (electricity_total r = Some v \/ natural_gas_heating r = Some v)
              /\ v < 0.

(** Some timestamp has no gas-heating reading. *)
Definition has_missing_gas (df_ts : list IntervalRow) : Prop :=
  exists r, In r df_ts /\ natural_gas_heating r = None.

(** A bucket in which nothing exists and whose listing has two entries. *)
Definition bare_fs : FileSystem :=
  {| fs_exists := fun _ => false;
     fs_ls := fun _ => ["bucket/by_state/readme.txt"; "bucket/by_state/year=2018"] |}.

(** The texts a run printed, lists entry by entry. *)
Fixpoint printed (log : list effect) : list string :=
  match log with
  | [] => []
  | Print line :: log' => line :: printed log'
  | PrintList items :: log' => (items ++ printed log')%list
  | _ :: log' => printed log'
  end.

(** The run only looked: no effect other than existence checks, listings
    and printing. *)
Definition read_only (log : list effect) : Prop :=
  forall e, In e log ->
    (exists p, e = Exists p) \/ (exists p, e = Ls p)
    \/ (exists l, e = Print l) \/ (exists l, e = PrintList l).

(** The heating-fuel text of a building: the column under its first name,
    else under its second, else nothing. *)
Definition heating_fuel_text (df : DataFrame) (b : Row) : cell :=
  if has_column df "in.heating_fuel" then get b "in.heating_fuel"
  else if has_column df "in.hvac_heating_type" then get b "in.hvac_heating_type"
  else None.

(** The text names gas or propane, in any case of letters. *)
Definition names_gas (text : string) : Prop :=
  occurs_in_nocase "Gas" text \/ occurs_in_nocase "Propane" text.

(** The income text carries one of the two bracket marks. *)
Definition names_high_income (text : string) : Prop :=
  occurs_in_nocase "100" text \/ occurs_in_nocase "200" text.

Definition home (id fuel income : string) : Row :=
  [ ("bldg_id", Some id); ("in.county", Some "G4500450");
    ("in.heating_fuel", Some fuel); ("in.income", Some income) ].

Definition meta_columns : list string :=
  ["bldg_id"; "in.county"; "in.heating_fuel"; "in.income"].

(** A county whose gas-heated homes are all below the income marks. *)
Definition modest_county : DataFrame :=
  {| columns := meta_columns;
     rows := [ home "11" "Natural Gas" "60000-69999";
               home "12" "Electricity" "100000-119999";
               home "13" "PROPANE" "30000-34999" ] |}.

(** The same county with one gas-heated home above them. *)
Definition mixed_county : DataFrame :=
  {| columns := meta_columns;
     rows := [ home "11" "Natural Gas" "60000-69999";
               home "12" "Electricity" "100000-119999";
               home "14" "Natural Gas" "200000+" ] |}.

(** A table as an older release names its columns, after [reset_index]
    gave the building identifiers the name "index". *)
Definition old_release : DataFrame :=
  {| columns := ["index"; "in.county"; "in.geometry_floor_area";
                 "in.hvac_heating_type"; "in.state"];
     rows := [ [ ("index", Some "31"); ("in.county", Some "G4500450");
                 ("in.geometry_floor_area", Some "2663");
                 ("in.hvac_heating_type", Some "Natural Gas Fuel Furnace");
                 ("in.state", Some "SC") ];
               [ ("index", Some "32"); ("in.county", Some "G4500790");
                 ("in.geometry_floor_area", Some "1220");
                 ("in.hvac_heating_type", Some "Electricity ASHP");
                 ("in.state", Some "SC") ] ] |}.

(** Three homes as [analyze_single_home.main] reads them: a small gas
    home, a large propane home and a large gas home. *)
Definition three_homes : analyze_single_home.MetaFrame :=
  analyze_single_home.mkMetaFrame
    ["bldg_id"; "in.sqft"; "in.heating_fuel"]
    [ analyze_single_home.mkMetaRow
        [("bldg_id", Some "41"); ("in.heating_fuel", Some "Natural Gas")]
        [("in.sqft", Some (1800%Q))];
      analyze_single_home.mkMetaRow
        [("bldg_id", Some "42"); ("in.heating_fuel", Some "Propane")]
        [("in.sqft", Some (3100%Q))];
      analyze_single_home.mkMetaRow
        [("bldg_id", Some "43"); ("in.heating_fuel", Some "Natural Gas")]
        [("in.sqft", Some (2900%Q))] ].

(** A county whose metadata has no income column. *)
Definition plain_county : DataFrame :=
  {| columns := ["bldg_id"; "in.heating_fuel"];
     rows := [ [ ("bldg_id", Some "21"); ("in.heating_fuel", Some "Natural Gas") ];
               [ ("bldg_id", Some "22"); ("in.heating_fuel", Some "Electricity") ];
               [ ("bldg_id", Some "23"); ("in.heating_fuel", Some "Propane") ] ] |}.

(** * Properties *)

(** ** Arithmetic on cells *)

Lemma Qeq_bool_pos (q : Q) : 0 < q -> Qeq_bool q 0 = false.
Proof.
  intros Hq. destruct (Qeq_bool q 0) eqn:E; [|reflexivity].
  apply Qeq_bool_eq in E. rewrite E in Hq. discriminate Hq.
Qed.

Lemma rdiv_pos (x : reading) (s : Q) :
  0 < s -> rdiv x (Some s) = match x with Some v => Some (v / s) | None => None end.
Proof.
  intros Hs. destruct x as [v|]; simpl; [|reflexivity].
  now rewrite (Qeq_bool_pos s Hs).
Qed.

Lemma scale_cell (x : reading) (n : Z) (s : Q) :
  0 < s -> rdiv (rmul x (of_int n)) (Some s) = scaled x n s.
Proof.
  intros Hs. rewrite rdiv_pos by exact Hs. now destruct x.
Qed.

Lemma py_int_floor (q : Q) : 0 <= q -> py_int q = Qfloor q.
Proof.
  destruct q as [n d]. unfold Qle, py_int, Qfloor. simpl. intros H.
  apply Z.quot_div_nonneg; lia.
Qed.

Lemma py_int_mono (p q : Q) : 0 <= p -> p <= q -> (py_int p <= py_int q)%Z.
Proof.
  intros Hp Hpq. rewrite !py_int_floor.
  - now apply Qfloor_resp_le.
  - now apply Qle_trans with p.
  - exact Hp.
Qed.

(** ** Columns *)


Lemma series_add_nth (a b : list reading) (t : nat) (x y : reading) :
  nth_error a t = Some x -> nth_error b t = Some y ->
  nth_error (app.series_add a b) t = Some (radd x y).
Proof.
  revert b t. induction a as [|a0 a IH]; intros [|b0 b] [|t]; simpl; try discriminate.
  - now intros [= ->] [= ->].
  - apply IH.
Qed.



(** C2.  For every interval frame the simulation keeps one row per
    timestamp and, at each of them, sets the added load to gas heating over
    COP and the total load to electricity plus added load, hence to
    electricity plus gas heating over 3; COP is the positive constant 3. *)
Theorem simulation_invariant (df_ts : list IntervalRow) :
  analyze_single_home.COP == 3
  /\ 0 < analyze_single_home.COP
  /\ List.length (analyze_single_home.stress_test df_ts) = List.length df_ts
  /\ forall (t : nat) (r : IntervalRow),
       nth_error df_ts t = Some r ->
       exists p : ProfileRow,
         nth_error (analyze_single_home.stress_test df_ts) t = Some p
         /\ timestamp p = ts r
         /\ electricity p = electricity_total r
         /\ gas_heating p = natural_gas_heating r
         /\ hp_added_load p = over_cop (gas_heating p)
         /\ total_load_after p = radd (electricity p) (hp_added_load p)
         /\ total_load_after p = substituted (electricity p) (gas_heating p).
Proof.
  split; [reflexivity|]. split; [reflexivity|]. split.
  - unfold analyze_single_home.stress_test. apply length_map.
  - intros t r Ht. exists (analyze_single_home.stress_row r).
    unfold analyze_single_home.stress_test. rewrite nth_error_map, Ht.
    split; [reflexivity|]. split; [reflexivity|]. split; [reflexivity|].
    split; [reflexivity|]. simpl. split; [|split].
    + now destruct (natural_gas_heating r).
    + reflexivity.
    + destruct (electricity_total r), (natural_gas_heating r); reflexivity.
Qed.

(** Witness of [simulation_invariant]: the first of the two sample
    intervals. *)
Lemma simulation_invariant_witness :
  nth_error two_rows 0 = Some (mkIntervalRow 1516060800 (Some 1) (Some 3))
  /\ exists p : ProfileRow,
       nth_error (analyze_single_home.stress_test two_rows) 0 = Some p
       /\ total_load_after p = substituted (Some 1) (Some 3).
Proof.
  split; [reflexivity|].
  destruct (proj2 (proj2 (proj2 (simulation_invariant two_rows)))
              0%nat (mkIntervalRow 1516060800 (Some 1) (Some 3)) eq_refl)
    as (p & Hp & _ & He & Hg & _ & _ & Ht).
  exists p. split; [exact Hp|]. rewrite Ht, He, Hg. reflexivity.
Defined.

(** C3.  The two sample intervals, simulated with COP 3 and read back by
    the dashboard, with 100 homes, adoption 0.5 and divisor 1000 give added
    load [1, 0], 50 converts, baseline [0.1, 0.2],
    projected [0.15, 0.2], both peaks 0.2, peak growth 0 and 0 percent; the
    dashboard reaches the same figures with its slider at 50. *)
Theorem scenario_example :
  let sim := app.load_data (analyze_single_home.stress_test two_rows) in
  curve_eq (map hp_added_load sim) [Some 1; Some 0]
  /\ app.num_converts 100 0.5 = 50%Z
  /\ curve_eq (app.baseline_curve 1000 sim 100) [Some 0.1; Some 0.2]
  /\ curve_eq (app.new_total_curve 1000 sim 100 0.5) [Some 0.15; Some 0.2]
  /\ reading_eq (app.old_peak 1000 sim 100) (Some 0.2)
  /\ reading_eq (app.new_peak 1000 sim 100 0.5) (Some 0.2)
  /\ reading_eq (app.peak_growth 1000 sim 100 0.5) (Some 0)
  /\ reading_eq (app.pct_increase 1000 sim 100 0.5) (Some 0)
  /\ app.slider_fraction 50 == 0.5
  /\ app.dashboard_converts 100 50 = 50%Z
  /\ curve_eq (app.dashboard_new_total sim 100 50) [Some 0.15; Some 0.2].
Proof.
  cbv zeta. repeat split; vm_compute; repeat constructor.
Qed.

(** ** The percentage *)

Lemma rgt0_pos (p : Q) : 0 < p -> rgt0 (Some p) = true.
Proof.
  intros Hp. simpl. destruct (Qle_bool p 0) eqn:E; [|reflexivity].
  apply Qle_bool_iff in E. exfalso. exact (Qlt_not_le _ _ Hp E).
Qed.

Lemma rgt0_zero (x : reading) : reading_eq x (Some 0) -> rgt0 x = false.
Proof.
  destruct x as [v|]; simpl; [|reflexivity].
  intros E. replace (Qle_bool v 0) with true; [reflexivity|].
  symmetry. apply Qle_bool_iff. rewrite E. apply Qle_refl.
Qed.

Lemma pct_of_zero (growth peak : reading) :
  reading_eq peak (Some 0) -> app.pct_of growth peak = Some 0.
Proof.
  intros E. unfold app.pct_of. now rewrite (rgt0_zero peak E).
Qed.

Lemma pct_of_pos (growth : reading) (p : Q) :
  0 < p -> reading_eq (app.pct_of growth (Some p)) (percent_of growth p).
Proof.
  intros Hp. unfold app.pct_of. rewrite (rgt0_pos p Hp).
  rewrite rdiv_pos by exact Hp.
  destruct growth as [g|]; simpl; [|exact I].
  field. intros E. rewrite E in Hp. discriminate Hp.
Qed.

(** C6.  For every input of the aggregation: a zero peak before gives the
    percentage 0, a value and not a fault; a positive peak before gives
    100 times the peak growth over the peak before. *)
Theorem percentage_guard
        (unit_scale : Q) (df : list ProfileRow) (subset_count : Z) (adoption_fraction : Q) :
  let peak_before := app.old_peak unit_scale df subset_count in
  let growth := app.peak_growth unit_scale df subset_count adoption_fraction in
  let percentage := app.pct_increase unit_scale df subset_count adoption_fraction in
  (reading_eq peak_before (Some 0) -> percentage = Some 0)
  /\ (forall p : Q, peak_before = Some p -> 0 < p ->
        reading_eq percentage (percent_of growth p)).
Proof.
  cbv zeta. unfold app.pct_increase. split.
  - apply pct_of_zero.
  - intros p -> Hp. now apply pct_of_pos.
Qed.

(** Witness of [percentage_guard]: the sample intervals scaled to no home
    at all (peak before 0) and to 100 homes (peak before 0.2). *)
Lemma percentage_guard_witness :
  let sim := analyze_single_home.stress_test two_rows in
  (reading_eq (app.old_peak 1000 sim 0) (Some 0)
   /\ app.pct_increase 1000 sim 0 0.5 = Some 0)
  /\ (app.old_peak 1000 sim 100 = Some (200 # 1000) /\ 0 < 200 # 1000
      /\ reading_eq (app.pct_increase 1000 sim 100 0.5)
                    (percent_of (app.peak_growth 1000 sim 100 0.5) (200 # 1000))).
Proof.
  cbv zeta.
  assert (Z0 : reading_eq
                 (app.old_peak 1000 (analyze_single_home.stress_test two_rows) 0) (Some 0))
    by reflexivity.
  assert (P1 : app.old_peak 1000 (analyze_single_home.stress_test two_rows) 100
               = Some (200 # 1000)) by reflexivity.
  assert (P2 : 0 < 200 # 1000) by reflexivity.
  split.
  - split; [exact Z0|].
    exact (proj1 (percentage_guard 1000 (analyze_single_home.stress_test two_rows)
                                   0 0.5) Z0).
  - split; [exact P1|]. split; [exact P2|].
    exact (proj2 (percentage_guard 1000 (analyze_single_home.stress_test two_rows)
                                   100 0.5) (200 # 1000) P1 P2).
Defined.

(** ** Monotonicity of the projected peak *)

Lemma series_add_map {A : Type} (f g : A -> reading) (l : list A) :
  app.series_add (map f l) (map g l) = map (fun r => radd (f r) (g r)) l.
Proof.
  unfold app.series_add. induction l as [|r l IH]; simpl; [reflexivity|].
  now rewrite IH.
Qed.

Lemma series_max_mono (c d : list reading) :
  Forall2 reading_le c d -> reading_le (series_max c) (series_max d).
Proof.
  induction 1 as [|x y c d Hxy _ IH]; simpl; [exact I|].
  destruct x as [a|], y as [b|]; simpl in Hxy; try contradiction.
  - destruct (series_max c) as [m|], (series_max d) as [n|];
      simpl in IH |- *; try contradiction.
    + now apply Q.max_le_compat.
    + exact Hxy.
  - exact IH.
Qed.

Lemma share_mono (v s : Q) (c1 c2 : Z) :
  0 <= v -> 0 < s -> (c1 <= c2)%Z ->
  v * inject_Z c1 / s <= v * inject_Z c2 / s.
Proof.
  intros Hv Hs Hc. unfold Qdiv.
  apply Qmult_le_compat_r.
  - rewrite !(Qmult_comm v). apply Qmult_le_compat_r; [|exact Hv].
    now rewrite <- Zle_Qle.
  - apply Qlt_le_weak. now apply Qinv_lt_0_compat.
Qed.

Lemma projected_cell_mono (r : ProfileRow) (n c1 c2 : Z) (s : Q) :
  0 < s -> (c1 <= c2)%Z ->
  (forall v, hp_added_load r = Some v -> 0 <= v) ->
  reading_le
    (radd (rdiv (rmul (electricity r) (of_int n)) (Some s))
          (rdiv (rmul (hp_added_load r) (of_int c1)) (Some s)))
    (radd (rdiv (rmul (electricity r) (of_int n)) (Some s))
          (rdiv (rmul (hp_added_load r) (of_int c2)) (Some s))).
Proof.
  intros Hs Hc Hadd. rewrite !scale_cell by exact Hs.
  destruct (electricity r) as [e|], (hp_added_load r) as [v|]; simpl; try exact I.
  apply Qplus_le_r. apply share_mono; auto.
Qed.

Lemma num_converts_mono (n : Z) (a1 a2 : Q) :
  (0 <= n)%Z -> 0 <= a1 -> a1 <= a2 ->
  (app.num_converts n a1 <= app.num_converts n a2)%Z.
Proof.
  intros Hn H1 H12. unfold app.num_converts.
  assert (Hq : 0 <= inject_Z n) by (change 0 with (inject_Z 0); now rewrite <- Zle_Qle).
  apply py_int_mono.
  - now apply Qmult_le_0_compat.
  - rewrite !(Qmult_comm (inject_Z n)). now apply Qmult_le_compat_r.
Qed.

(** C5.  With the frame, the count and the divisor fixed and no negative
    added load, a larger adoption fraction never gives a smaller peak after:
    the two peaks are missing together (a frame with no projected value) or
    the one of the smaller fraction is at most the one of the larger. *)
Theorem peak_after_monotone
        (df : list ProfileRow) (subset_count : Z) (unit_scale a1 a2 : Q) :
  (0 <= subset_count)%Z ->
  0 < unit_scale ->
  0 <= a1 -> a1 <= a2 -> a2 <= 1 ->
  (forall r v, In r df -> hp_added_load r = Some v -> 0 <= v) ->
  reading_le (app.new_peak unit_scale df subset_count a1)
             (app.new_peak unit_scale df subset_count a2).
Proof.
  intros Hn Hs H1 H12 _ Hadd. unfold app.new_peak. apply series_max_mono.
  unfold app.new_total_curve, app.baseline_curve, app.added_curve.
  rewrite !series_add_map.
  pose proof (num_converts_mono subset_count a1 a2 Hn H1 H12) as Hc.
  induction df as [|r df IH]; simpl; constructor.
  - apply projected_cell_mono; auto.
    intros v Hv. apply (Hadd r v); [now left|exact Hv].
  - apply IH. intros r' v Hin. apply Hadd. now right.
Qed.

(** Witness of [peak_after_monotone]: a frame whose second interval
    carries a large added load, 100 homes, fractions 0.1 and 0.9. *)
Lemma peak_after_monotone_witness :
  reading_le (app.new_peak 1000 heating_peak_rows 100 (1 # 10))
             (app.new_peak 1000 heating_peak_rows 100 (9 # 10)).
Proof.
  apply peak_after_monotone; try discriminate.
  - reflexivity.
  - intros r v [<-|[<-|[]]]; simpl; intros [= <-]; discriminate.
Defined.

(** ** The simulation has no validation *)

(** C4, as stated, fails: on a frame with a negative electricity reading and
    a missing gas-heating reading the simulation returns a frame and raises
    nothing. *)
Lemma validation_counterexample :
  has_negative faulty_rows
  /\ has_missing_gas faulty_rows
  /\ analyze_single_home.run_simulation faulty_rows
     = Returned [ mkProfileRow 0 (Some (-1)) None None None ]
  /\ analyze_single_home.run_simulation faulty_rows <> Raised "InvalidInput".
Proof.
  split; [|split; [|split]].
  - exists (mkIntervalRow 0 (Some (-1)) None), (-1).
    split; [now left|]. split; [now left|reflexivity].
  - exists (mkIntervalRow 0 (Some (-1)) None). split; [now left|reflexivity].
  - reflexivity.
  - discriminate.
Qed.

(** C4, amended.  The simulation never fails: for every frame it returns the
    extended frame.  COP is the constant 3 and both channels are read from
    the row of one timestamp.  A present gas-heating reading, negative or
    not, gives the added load gas over 3; a missing one gives a missing
    added load and a missing total load, never zero and never the
    electricity reading alone. *)
Theorem simulation_never_rejects (df_ts : list IntervalRow) :
  analyze_single_home.run_simulation df_ts
  = Returned (analyze_single_home.stress_test df_ts)
  /\ (forall exn, analyze_single_home.run_simulation df_ts <> Raised exn)
  /\ forall (t : nat) (r : IntervalRow),
       nth_error df_ts t = Some r ->
       exists p : ProfileRow,
         nth_error (analyze_single_home.stress_test df_ts) t = Some p
         /\ timestamp p = ts r
         /\ (forall g, natural_gas_heating r = Some g -> hp_added_load p = Some (g / 3))
         /\ (natural_gas_heating r = None ->
             hp_added_load p = None /\ total_load_after p = None).
Proof.
  split; [reflexivity|]. split; [discriminate|].
  intros t r Ht. exists (analyze_single_home.stress_row r).
  unfold analyze_single_home.stress_test. rewrite nth_error_map, Ht.
  split; [reflexivity|]. split; [reflexivity|]. split.
  - intros g Hg. simpl. now rewrite Hg.
  - intros Hg. simpl. rewrite Hg. split; [reflexivity|].
    now destruct (electricity_total r).
Qed.

(** Witness of [simulation_never_rejects]: the faulty interval. *)
Lemma simulation_never_rejects_witness :
  nth_error faulty_rows 0 = Some (mkIntervalRow 0 (Some (-1)) None)
  /\ exists p : ProfileRow,
       nth_error (analyze_single_home.stress_test faulty_rows) 0 = Some p
       /\ hp_added_load p = None /\ total_load_after p = None.
Proof.
  split; [reflexivity|].
  destruct (proj2 (proj2 (simulation_never_rejects faulty_rows))
              0%nat (mkIntervalRow 0 (Some (-1)) None) eq_refl)
    as (p & Hp & _ & _ & Hmiss).
  exists p. split; [exact Hp|]. exact (Hmiss eq_refl).
Defined.

(** ** The path resolver *)

Lemma read_only_nil : read_only [].
Proof. intros e []. Qed.

Lemma read_only_cons (e : effect) (log : list effect) :
  ((exists p, e = Exists p) \/ (exists p, e = Ls p)
   \/ (exists l, e = Print l) \/ (exists l, e = PrintList l)) ->
  read_only log -> read_only (e :: log).
Proof.
  intros He Hlog e' [<-|Hin]; [exact He|now apply Hlog].
Qed.

Ltac log_read_only :=
  repeat (apply read_only_cons; [eauto 6|]); apply read_only_nil.

(** C7, as stated, fails: in a bucket where neither variant exists the
    resolver returns [None], and nothing it prints mentions either of the
    two paths it tried. *)
Lemma resolver_counterexample :
  let a := analyze_single_home.path_a "bucket/by_state" "SC" in
  let b := analyze_single_home.path_b "bucket/by_state" "SC" in
  let out := run (analyze_single_home.get_correct_timeseries_path "bucket/by_state" "SC") bare_fs in
  fs_exists bare_fs a = false
  /\ fs_exists bare_fs b = false
  /\ fst out = None
  /\ printed (snd out)
     = [ "⚠️ Could not find standard path. Listing bucket/by_state:";
         "bucket/by_state/readme.txt"; "bucket/by_state/year=2018" ]
  /\ forallb (fun line => negb (re_search true [a; b] line)) (printed (snd out)) = true.
Proof.
  cbv zeta. repeat split.
Qed.

(** C7, amended.  The resolver probes [state=../upgrade=0] first and
    [upgrade=0/state=..] second and returns the first that exists, probing
    no further.  When neither exists it returns [None] after printing a
    notice that names the root and then the first five entries of the
    root's listing; the run consists of existence checks, that one listing
    and printing, nothing else. *)
Theorem resolver_priority (fs : FileSystem) (root_path state_abbr : string) :
  let a := analyze_single_home.path_a root_path state_abbr in
  let b := analyze_single_home.path_b root_path state_abbr in
  let out := run (analyze_single_home.get_correct_timeseries_path root_path state_abbr) fs in
  (fs_exists fs a = true -> out = (Some a, [Exists a]))
  /\ (fs_exists fs a = false -> fs_exists fs b = true ->
      out = (Some b, [Exists a; Exists b]))
  /\ (fs_exists fs a = false -> fs_exists fs b = false ->
      out = (None,
             [ Exists a; Exists b;
               Print ("⚠️ Could not find standard path. Listing " ++ root_path ++ ":");
               Ls root_path;
               PrintList (firstn 5 (fs_ls fs root_path)) ]))
  /\ read_only (snd out).
Proof.
  cbv zeta.
  unfold run, analyze_single_home.get_correct_timeseries_path, bind, io_exists, io_ls,
    io_print, io_print_list, ret.
  repeat split.
  - intros Ha. simpl. now rewrite Ha.
  - intros Ha Hb. simpl. now rewrite Ha, Hb.
  - intros Ha Hb. simpl. now rewrite Ha, Hb.
  - simpl.
    destruct (fs_exists fs (analyze_single_home.path_a root_path state_abbr)); simpl;
      [log_read_only|].
    destruct (fs_exists fs (analyze_single_home.path_b root_path state_abbr)); simpl;
      log_read_only.
Qed.

(** Witness of [resolver_priority]: the bare bucket, where both probes
    fail. *)
Lemma resolver_priority_witness :
  fs_exists bare_fs (analyze_single_home.path_a "bucket/by_state" "SC") = false
  /\ fs_exists bare_fs (analyze_single_home.path_b "bucket/by_state" "SC") = false
  /\ fst (run (analyze_single_home.get_correct_timeseries_path "bucket/by_state" "SC") bare_fs) = None.
Proof.
  split; [reflexivity|]. split; [reflexivity|].
  rewrite (proj1 (proj2 (proj2 (resolver_priority bare_fs "bucket/by_state" "SC")))
             eq_refl eq_refl).
  reflexivity.
Defined.

(** ** The scan of [re.search] finds exactly the occurrences *)

Open Scope string_scope.

Lemma fold_string_app (s t : string) :
  fold_string (s ++ t) = fold_string s ++ fold_string t.
Proof.
  induction s as [|c s IH]; simpl; [reflexivity|]. now rewrite IH.
Qed.

Lemma match_here_prefix (pat s : string) :
  match_here true pat s = true <-> exists post, s = pat ++ post.
Proof.
  revert s. induction pat as [|p pat IH]; intros s; simpl.
  - split; [intros _; now exists s|reflexivity].
  - destruct s as [|c s].
    + split; [discriminate|]. intros [post H]. discriminate H.
    + unfold char_match. rewrite andb_true_iff, Ascii.eqb_eq, IH. split.
      * intros [-> [post ->]]. now exists post.
      * intros [post [= -> ->]]. split; [reflexivity|now exists post].
Qed.

Lemma match_here_fold (pat s : string) :
  match_here false pat s = match_here true (fold_string pat) (fold_string s).
Proof.
  revert s. induction pat as [|p pat IH]; intros s; simpl; [reflexivity|].
  destruct s as [|c s]; simpl; [reflexivity|]. now rewrite IH.
Qed.

Lemma re_search_occurs (alts : list string) (s : string) :
  re_search true alts s = true <-> exists pat, In pat alts /\ occurs_in pat s.
Proof.
  induction s as [|c s IH]; simpl; rewrite orb_true_iff, existsb_exists.
  - split.
    + intros [(pat & Hin & Hm)|H]; [|discriminate H].
      apply match_here_prefix in Hm. destruct Hm as [post Hpost].
      exists pat. split; [exact Hin|]. now exists "", post.
    + intros (pat & Hin & pre & post & H). left. exists pat. split; [exact Hin|].
      destruct pre as [|c pre]; [|discriminate H].
      apply match_here_prefix. now exists post.
  - rewrite IH. split.
    + intros [(pat & Hin & Hm)|(pat & Hin & pre & post & H)].
      * apply match_here_prefix in Hm. destruct Hm as [post Hpost].
        exists pat. split; [exact Hin|]. now exists "", post.
      * exists pat. split; [exact Hin|]. exists (String c pre), post.
        simpl. now rewrite H.
    + intros (pat & Hin & pre & post & H). destruct pre as [|c' pre].
      * left. exists pat. split; [exact Hin|].
        apply match_here_prefix. now exists post.
      * right. injection H as _ H. exists pat. split; [exact Hin|].
        now exists pre, post.
Qed.

Lemma re_search_fold (alts : list string) (s : string) :
  re_search false alts s = re_search true (map fold_string alts) (fold_string s).
Proof.
  assert (E : forall t, existsb (fun pat => match_here false pat t) alts
                        = existsb (fun pat => match_here true pat (fold_string t))
                                  (map fold_string alts)).
  { intros t. induction alts as [|a alts IHa]; simpl; [reflexivity|].
    now rewrite IHa, match_here_fold. }
  induction s as [|c s IH]; simpl; rewrite E; [reflexivity|]. now rewrite IH.
Qed.

Lemma re_search_occurs_nocase (alts : list string) (s : string) :
  re_search false alts s = true <-> exists pat, In pat alts /\ occurs_in_nocase pat s.
Proof.
  rewrite re_search_fold, re_search_occurs. unfold occurs_in_nocase. split.
  - intros (pat & Hin & Hocc). apply in_map_iff in Hin.
    destruct Hin as (pat0 & <- & Hin0). now exists pat0.
  - intros (pat & Hin & Hocc). exists (fold_string pat). split; [|exact Hocc].
    now apply in_map.
Qed.

(** Digits have no case: on a word of digits both scans agree. *)

Lemma char_match_digit (p c : ascii) :
  is_digit p = true -> char_match false p c = char_match true p c.
Proof.
  unfold is_digit, char_match, fold_case, is_upper.
  pose proof (nat_ascii_bounded c) as Hc.
  rewrite andb_true_iff, !Nat.leb_le. intros [Hp1 Hp2].
  replace ((65 <=? nat_of_ascii p)%nat && (nat_of_ascii p <=? 90)%nat) with false
    by (symmetry; apply andb_false_iff; left; apply Nat.leb_gt; lia).
  destruct ((65 <=? nat_of_ascii c)%nat && (nat_of_ascii c <=? 90)%nat) eqn:E;
    [|reflexivity].
  apply andb_true_iff in E. rewrite !Nat.leb_le in E.
  transitivity false; [|symmetry]; apply Ascii.eqb_neq; intros ->.
  - rewrite nat_ascii_embedding in Hp2 by lia. lia.
  - lia.
Qed.

Lemma match_here_digits (pat s : string) :
  forallb is_digit (list_ascii_of_string pat) = true ->
  match_here false pat s = match_here true pat s.
Proof.
  revert s. induction pat as [|p pat IH]; intros s; [reflexivity|].
  cbn [list_ascii_of_string forallb]. rewrite andb_true_iff. intros [Hp Hpat].
  destruct s as [|c s]; [reflexivity|]. cbn [match_here].
  now rewrite (IH s Hpat), (char_match_digit p c Hp).
Qed.

Lemma re_search_digits (alts : list string) (s : string) :
  forallb (fun pat => forallb is_digit (list_ascii_of_string pat)) alts = true ->
  re_search false alts s = re_search true alts s.
Proof.
  intros Hd.
  assert (E : forall t, existsb (fun pat => match_here false pat t) alts
                        = existsb (fun pat => match_here true pat t) alts).
  { intros t. induction alts as [|a alts IHa]; simpl; [reflexivity|].
    simpl in Hd. apply andb_true_iff in Hd. destruct Hd as [Ha Hd].
    now rewrite IHa, match_here_digits. }
  induction s as [|c s IH]; simpl; rewrite E; [reflexivity|]. now rewrite IH.
Qed.

(** On the income words, "contains" and "contains up to case" coincide. *)
Lemma income_words_nocase (text : string) :
  (occurs_in "100" text \/ occurs_in "200" text)
  <-> (occurs_in_nocase "100" text \/ occurs_in_nocase "200" text).
Proof.
  assert (S : forall P : string -> Prop,
             (exists pat, In pat ["100"; "200"] /\ P pat) <-> (P "100" \/ P "200")).
  { intros P. split.
    - intros (pat & [<-|[<-|[]]] & H); [now left|now right].
    - intros [H|H]; [exists "100"|exists "200"]; simpl; auto. }
  rewrite <- (S (fun pat => occurs_in pat text)).
  rewrite <- (S (fun pat => occurs_in_nocase pat text)).
  rewrite <- re_search_occurs, <- re_search_occurs_nocase.
  now rewrite re_search_digits.
Qed.

(** ** The addressable market *)

Lemma is_gas_heated_iff (col : string) (b : Row) :
  app.is_gas_heated col b = true
  <-> exists text, get b col = Some text /\ names_gas text.
Proof.
  unfold app.is_gas_heated, str_contains, names_gas.
  destruct (get b col) as [text|].
  - rewrite re_search_occurs_nocase. split.
    + intros (pat & [<-|[<-|[]]] & H); exists text; auto.
    + intros (text' & [= <-] & [H|H]); [exists "Gas"|exists "Propane"]; simpl; auto.
  - split; [discriminate|]. intros (text & H & _). discriminate H.
Qed.

(** C8.  A building of the selected population is in the gas-heated subset
    if and only if its heating-fuel text contains "Gas" or "Propane" in any
    case of letters. *)
Theorem gas_heated_iff (county_homes : DataFrame) (b : Row) :
  In b (rows (app.gas_homes county_homes))
  <-> In b (rows county_homes)
      /\ exists text, heating_fuel_text county_homes b = Some text /\ names_gas text.
Proof.
  unfold app.gas_homes, app.heat_col, heating_fuel_text.
  destruct (has_column county_homes "in.heating_fuel") eqn:E1.
  - rewrite E1. simpl. now rewrite filter_In, is_gas_heated_iff.
  - destruct (has_column county_homes "in.hvac_heating_type") eqn:E2.
    + simpl. now rewrite filter_In, is_gas_heated_iff.
    + simpl. split; [intros []|]. intros (_ & text & H & _). discriminate H.
Qed.

(** Witness of [gas_heated_iff]: home 13 of the modest county, heated with
    "PROPANE". *)
Lemma gas_heated_iff_witness :
  In (home "13" "PROPANE" "30000-34999") (rows (app.gas_homes modest_county)).
Proof.
  apply (proj2 (gas_heated_iff modest_county (home "13" "PROPANE" "30000-34999"))).
  split.
  - right. right. left. reflexivity.
  - exists "PROPANE". split; [reflexivity|].
    right. exists "", "". reflexivity.
Defined.

(** ** The high-priority table *)

Lemma has_column_gas_homes (county_homes : DataFrame) (col : string) :
  has_column (app.gas_homes county_homes) col = true ->
  has_column county_homes col = true.
Proof.
  unfold app.gas_homes.
  destruct (has_column county_homes (app.heat_col county_homes));
    [trivial|discriminate].
Qed.

Lemma is_empty_rows (df : DataFrame) (col : string) :
  has_column df col = true ->
  is_empty df = match rows df with [] => true | _ :: _ => false end.
Proof.
  unfold has_column, is_empty. destruct (columns df); [discriminate|reflexivity].
Qed.

Lemma is_high_income_iff (b : Row) :
  app.is_high_income b = true
  <-> exists text, get b "in.income" = Some text /\ names_high_income text.
Proof.
  unfold app.is_high_income, str_contains, names_high_income.
  destruct (get b "in.income") as [text|].
  - rewrite re_search_occurs. split.
    + intros (pat & Hin & H). exists text. split; [reflexivity|].
      apply (proj1 (income_words_nocase text)).
      destruct Hin as [<-|[<-|[]]]; [now left|now right].
    + intros (text' & [= <-] & H). apply (proj2 (income_words_nocase text)) in H.
      destruct H as [H|H]; [exists "100"|exists "200"]; simpl; auto.
  - split; [discriminate|]. intros (text & H & _). discriminate H.
Qed.


(** C9, as stated, fails: in the modest county the income column is present
    and home 11, gas heated with an income text that carries neither mark,
    is on the high-priority list. *)
Lemma income_filter_counterexample :
  let gas := app.gas_homes modest_county in
  let b := home "11" "Natural Gas" "60000-69999" in
  has_column modest_county "in.income" = true
  /\ In b (rows gas)
  /\ get b "in.income" = Some "60000-69999"
  /\ app.is_high_income b = false
  /\ ~ names_high_income "60000-69999"
  /\ In b (rows (fst (app.high_risk gas))).
Proof.
  cbv zeta. split; [reflexivity|]. split; [now left|]. split; [reflexivity|].
  split; [reflexivity|]. split; [|now left].
  intros H.
  assert (E : app.is_high_income (home "11" "Natural Gas" "60000-69999") = true).
  { apply is_high_income_iff. now exists "60000-69999". }
  discriminate E.
Qed.

Lemma gas_homes_columns (county_homes : DataFrame) (b : Row) :
  In b (rows (app.gas_homes county_homes)) ->
  columns (app.gas_homes county_homes) = columns county_homes.
Proof.
  unfold app.gas_homes.
  destruct (has_column county_homes (app.heat_col county_homes));
    [reflexivity|intros []].
Qed.

Lemma high_risk_without_income (gas : DataFrame) :
  has_column gas "in.income" = false ->
  app.high_risk gas
  = (gas, st_warning "⚠️ Income data not available for this region. Showing all eligible gas homes.").
Proof.
  intros H. unfold app.high_risk. now rewrite H.
Qed.

Lemma high_risk_filtered (gas : DataFrame) (b : Row) :
  has_column gas "in.income" = true ->
  In b (rows gas) -> app.is_high_income b = true ->
  app.high_risk gas
  = (select_rows gas app.is_high_income,
     st_success ("Identified "
                 ++ app.show_nat
                      (List.length (rows (select_rows gas app.is_high_income)))
                 ++ " high-income households for targeting.")).
Proof.
  intros Hc Hin Hb. unfold app.high_risk. rewrite Hc.
  rewrite (is_empty_rows (select_rows gas app.is_high_income) "in.income")
    by exact Hc.
  assert (Hhr : In b (rows (select_rows gas app.is_high_income)))
    by (simpl; apply filter_In; now split).
  destruct (rows (select_rows gas app.is_high_income)); [destruct Hhr|reflexivity].
Qed.


(** C9, amended.  When the population has no income column, the
    high-priority list is the whole gas-heated subset, so it has as many
    rows, and the notice is the warning that all eligible gas homes are
    shown.  When it has one and some gas-heated building's income text
    contains "100" or "200", the notice is the success one and a building is
    on the list exactly when it is gas heated and its income text contains
    "100" or "200". *)
Theorem high_priority_modes (county_homes : DataFrame) :
  let gas := app.gas_homes county_homes in
  (has_column county_homes "in.income" = false ->
   app.high_risk gas
   = (gas, st_warning "⚠️ Income data not available for this region. Showing all eligible gas homes.")
   /\ List.length (rows (fst (app.high_risk gas))) = List.length (rows gas))
  /\ (has_column county_homes "in.income" = true ->
      (exists b text,
          In b (rows gas) /\ get b "in.income" = Some text /\ names_high_income text) ->
      snd (app.high_risk gas)
      = st_success ("Identified "
                    ++ app.show_nat (List.length (rows (fst (app.high_risk gas))))
                    ++ " high-income households for targeting.")
      /\ forall b,
           In b (rows (fst (app.high_risk gas)))
           <-> In b (rows gas)
               /\ exists text, get b "in.income" = Some text /\ names_high_income text).
Proof.
  cbv zeta. split.
  - intros Habs.
    assert (Hg : has_column (app.gas_homes county_homes) "in.income" = false).
    { destruct (has_column (app.gas_homes county_homes) "in.income") eqn:E;
        [|reflexivity].
      apply has_column_gas_homes in E. congruence. }
    rewrite (high_risk_without_income _ Hg). split; reflexivity.
  - intros Hpres (b0 & text0 & Hin0 & Hget0 & Hhigh0).
    assert (Hg : has_column (app.gas_homes county_homes) "in.income" = true).
    { unfold has_column. rewrite (gas_homes_columns county_homes b0 Hin0). exact Hpres. }
    assert (Hb0 : app.is_high_income b0 = true).
    { apply is_high_income_iff. now exists text0. }
    rewrite (high_risk_filtered _ b0 Hg Hin0 Hb0). split; [reflexivity|].
    intros b. simpl. now rewrite filter_In, is_high_income_iff.
Qed.

(** Witness of [high_priority_modes]: the plain county for the first mode,
    the mixed county (home 14, "200000+") for the second. *)
Lemma high_priority_modes_witness :
  (has_column plain_county "in.income" = false
   /\ List.length (rows (fst (app.high_risk (app.gas_homes plain_county))))
      = List.length (rows (app.gas_homes plain_county)))
  /\ (has_column mixed_county "in.income" = true
      /\ snd (app.high_risk (app.gas_homes mixed_county))
         = st_success
             ("Identified "
              ++ app.show_nat
                   (List.length (rows (fst (app.high_risk (app.gas_homes mixed_county)))))
              ++ " high-income households for targeting.")).
Proof.
  split.
  - split; [reflexivity|].
    exact (proj2 (proj1 (high_priority_modes plain_county) eq_refl)).
  - split; [reflexivity|].
    refine (proj1 (proj2 (high_priority_modes mixed_county) eq_refl _)).
    exists (home "14" "Natural Gas" "200000+"), "200000+".
    split; [right; left; reflexivity|]. split; [reflexivity|].
    right. exists "", "000+". reflexivity.
Defined.

Lemma high_risk_columns (gas : DataFrame) :
  columns (fst (app.high_risk gas)) = columns gas.
Proof.
  unfold app.high_risk. destruct (has_column gas "in.income"); [|reflexivity].
  now destruct (negb (is_empty (select_rows gas app.is_high_income))).
Qed.




(** The caller of the resolver in [main] leaves with [SystemExit] when
    neither variant exists. *)
Lemma locate_timeseries_exits (fs : FileSystem) :
  fs_exists fs (analyze_single_home.path_a analyze_single_home.BY_STATE_ROOT "SC") = false ->
  fs_exists fs (analyze_single_home.path_b analyze_single_home.BY_STATE_ROOT "SC") = false ->
  fst (run analyze_single_home.locate_timeseries fs) = Raised "SystemExit".
Proof.
  intros Ha Hb.
  unfold run, analyze_single_home.locate_timeseries, analyze_single_home.get_correct_timeseries_path,
    bind, io_exists, io_ls, io_print, io_print_list, ret.
  now rewrite Ha, Hb.
Qed.

(** * Further properties of the calculations *)

Open Scope Q_scope.

Lemma inject_Z_nonneg (n : Z) : (0 <= n)%Z -> 0 <= inject_Z n.
Proof.
  intros Hn. change 0 with (inject_Z 0). now rewrite <- Zle_Qle.
Qed.

Lemma num_converts_range (n : Z) (a : Q) :
  (0 <= n)%Z -> 0 <= a -> a <= 1 ->
  (0 <= app.num_converts n a <= n)%Z.
Proof.
  intros Hn Ha0 Ha1. unfold app.num_converts.
  pose proof (inject_Z_nonneg n Hn) as Hq.
  assert (H0 : 0 <= inject_Z n * a) by now apply Qmult_le_0_compat.
  rewrite py_int_floor by exact H0. split.
  - change 0%Z with (Qfloor 0). now apply Qfloor_resp_le.
  - rewrite <- (Qfloor_Z n) at 2. apply Qfloor_resp_le.
    rewrite <- (Qmult_1_r (inject_Z n)) at 2.
    rewrite !(Qmult_comm (inject_Z n)). now apply Qmult_le_compat_r.
Qed.

Lemma slider_fraction_range (adoption_rate : Z) :
  (0 <= adoption_rate <= 100)%Z ->
  0 <= app.slider_fraction adoption_rate /\ app.slider_fraction adoption_rate <= 1.
Proof.
  intros [H0 H1]. unfold app.slider_fraction. split.
  - apply Qle_shift_div_l; [reflexivity|]. rewrite Qmult_0_l.
    now apply inject_Z_nonneg.
  - apply Qle_shift_div_r; [reflexivity|]. rewrite Qmult_1_l.
    change 100 with (inject_Z 100). now rewrite <- Zle_Qle.
Qed.

(** X1.  The number of converts is never negative and never exceeds the
    number of gas homes, for any count [>= 0] and any fraction in [0, 1];
    in particular for every position 0..100 of the slider. *)
Theorem converts_within_market (total_gas_homes : Z) :
  (0 <= total_gas_homes)%Z ->
  (forall adoption_fraction : Q,
      0 <= adoption_fraction <= 1 ->
      (0 <= app.num_converts total_gas_homes adoption_fraction <= total_gas_homes)%Z)
  /\ (forall adoption_rate : Z,
         (0 <= adoption_rate <= 100)%Z ->
         (0 <= app.dashboard_converts total_gas_homes adoption_rate
          <= total_gas_homes)%Z).
Proof.
  intros Hn. split.
  - intros a [H0 H1]. now apply num_converts_range.
  - intros rate Hr. unfold app.dashboard_converts.
    destruct (slider_fraction_range rate Hr). now apply num_converts_range.
Qed.

(** Witness of [converts_within_market]: 37 homes, slider at 20. *)
Lemma converts_within_market_witness :
  (0 <= app.dashboard_converts 37 20 <= 37)%Z.
Proof.
  apply (converts_within_market 37); lia.
Defined.

(** ** What [Series.max] returns *)

Lemma Qmax_cases (a b : Q) : (Qmax a b = a /\ b <= a) \/ (Qmax a b = b /\ a <= b).
Proof.
  unfold Qmax, GenericMinMax.gmax.
  destruct (a ?= b) eqn:E.
  - left. split; [reflexivity|]. apply Qeq_alt in E. rewrite E. apply Qle_refl.
  - right. split; [reflexivity|]. apply Qlt_le_weak. now apply Qlt_alt.
  - left. split; [reflexivity|]. apply Qlt_le_weak. now apply Qgt_alt.
Qed.

Lemma series_max_none (s : list reading) :
  series_max s = None <-> forall x, In x s -> x = None.
Proof.
  induction s as [|x s IH]; simpl.
  - split; [intros _ x []|reflexivity].
  - destruct x as [a|].
    + split.
      * destruct (series_max s); discriminate.
      * intros H. discriminate (H (Some a) (or_introl eq_refl)).
    + rewrite IH. split.
      * intros H x [<-|Hx]; auto.
      * intros H x Hx. apply H. now right.
Qed.

Lemma series_max_some (s : list reading) (m : Q) :
  series_max s = Some m ->
  In (Some m) s /\ forall v, In (Some v) s -> v <= m.
Proof.
  revert m. induction s as [|x s IH]; simpl; [discriminate|]. intros m.
  destruct x as [a|].
  - destruct (series_max s) as [b|] eqn:Eb.
    + intros [= <-]. destruct (IH b eq_refl) as [Hin Hub].
      destruct (Qmax_cases a b) as [[-> Hba]|[-> Hab]].
      * split; [now left|]. intros v [[= <-]|Hv]; [apply Qle_refl|].
        apply Qle_trans with b; auto.
      * split; [now right|]. intros v [[= <-]|Hv]; auto.
    + intros [= <-]. split; [now left|].
      intros v [[= <-]|Hv]; [apply Qle_refl|].
      discriminate (proj1 (series_max_none s) Eb (Some v) Hv).
  - intros Hm. destruct (IH m Hm) as [Hin Hub]. split; [now right|].
    intros v [Hv|Hv]; [discriminate Hv|auto].
Qed.

(** X2.  The peak before is a value of the baseline curve and no value of
    the curve is larger; it is missing exactly when the curve has no value
    at all (an empty frame included).  The same holds for the peak after and
    the projected curve. *)
Theorem peaks_are_maxima
        (unit_scale : Q) (df : list ProfileRow) (n : Z) (a : Q) :
  let baseline := app.baseline_curve unit_scale df n in
  let projected := app.new_total_curve unit_scale df n a in
  (forall m, app.old_peak unit_scale df n = Some m ->
             In (Some m) baseline /\ forall v, In (Some v) baseline -> v <= m)
  /\ (app.old_peak unit_scale df n = None <-> forall x, In x baseline -> x = None)
  /\ (forall m, app.new_peak unit_scale df n a = Some m ->
                In (Some m) projected /\ forall v, In (Some v) projected -> v <= m)
  /\ (app.new_peak unit_scale df n a = None <-> forall x, In x projected -> x = None).
Proof.
  cbv zeta. unfold app.old_peak, app.new_peak.
  split; [|split; [|split]].
  - intros m. apply series_max_some.
  - apply series_max_none.
  - intros m. apply series_max_some.
  - apply series_max_none.
Qed.

(** Witness of [peaks_are_maxima]: the peak after of the heating-peak
    frame for 100 homes at 90 percent is one of its projected values. *)
Lemma peaks_are_maxima_witness :
  In (app.new_peak 1000 heating_peak_rows 100 (9 # 10))
     (app.new_total_curve 1000 heating_peak_rows 100 (9 # 10)).
Proof.
  destruct (app.new_peak 1000 heating_peak_rows 100 (9 # 10)) as [m|] eqn:E;
    [|discriminate E].
  exact (proj1 (proj1 (proj2 (proj2 (peaks_are_maxima 1000 heating_peak_rows 100 (9 # 10))))
                      m E)).
Defined.

(** ** Zero and full adoption *)

Lemma new_total_cell (unit_scale : Q) (df : list ProfileRow) (n : Z) (a : Q)
      (t : nat) (r : ProfileRow) :
  0 < unit_scale ->
  nth_error df t = Some r ->
  nth_error (app.baseline_curve unit_scale df n) t
  = Some (scaled (electricity r) n unit_scale)
  /\ nth_error (app.new_total_curve unit_scale df n a) t
     = Some (radd (scaled (electricity r) n unit_scale)
                  (scaled (hp_added_load r) (app.num_converts n a) unit_scale)).
Proof.
  intros Hs Ht.
  assert (Hb : nth_error (app.baseline_curve unit_scale df n) t
               = Some (scaled (electricity r) n unit_scale)).
  { unfold app.baseline_curve. rewrite nth_error_map, Ht. simpl.
    now rewrite scale_cell. }
  split; [exact Hb|].
  unfold app.new_total_curve. apply series_add_nth; [exact Hb|].
  unfold app.added_curve. rewrite nth_error_map, Ht. simpl. now rewrite scale_cell.
Qed.

Lemma num_converts_zero (n : Z) : app.num_converts n 0 = 0%Z.
Proof.
  unfold app.num_converts, py_int. simpl. rewrite Z.mul_0_r. reflexivity.
Qed.

Lemma num_converts_one (n : Z) : app.num_converts n 1 = n.
Proof.
  unfold app.num_converts, py_int. simpl. rewrite Z.mul_1_r. apply Z.quot_1_r.
Qed.

(** X3.  At adoption 0 nobody converts, and at every timestamp whose added
    load is present the projected value equals the baseline value; where the
    added load is missing the projected value is missing although nobody
    converts. *)
Theorem zero_adoption
        (unit_scale : Q) (df : list ProfileRow) (n : Z) :
  0 < unit_scale ->
  app.num_converts n 0 = 0%Z
  /\ app.dashboard_converts n 0 = 0%Z
  /\ forall (t : nat) (r : ProfileRow),
       nth_error df t = Some r ->
       (hp_added_load r <> None ->
        exists b p,
          nth_error (app.baseline_curve unit_scale df n) t = Some b
          /\ nth_error (app.new_total_curve unit_scale df n 0) t = Some p
          /\ reading_eq p b)
       /\ (hp_added_load r = None ->
           nth_error (app.new_total_curve unit_scale df n 0) t = Some None).
Proof.
  intros Hs. split; [apply num_converts_zero|]. split.
  { unfold app.dashboard_converts, app.num_converts, py_int. simpl.
    now rewrite Z.mul_0_r. }
  intros t r Ht.
  destruct (new_total_cell unit_scale df n 0 t r Hs Ht) as [Hb Hp].
  rewrite num_converts_zero in Hp. split.
  - intros Hadd. eexists. eexists. split; [exact Hb|]. split; [exact Hp|].
    destruct (hp_added_load r) as [v|]; [|now destruct Hadd].
    destruct (electricity r) as [e|]; simpl; [|exact I].
    field. intros E. rewrite E in Hs. discriminate Hs.
  - intros Hadd. rewrite Hp, Hadd.
    now destruct (scaled (electricity r) n unit_scale).
Qed.

(** Witness of [zero_adoption]: the first interval of the heating-peak
    frame, 100 homes. *)
Lemma zero_adoption_witness :
  exists b p,
    nth_error (app.baseline_curve 1000 heating_peak_rows 100) 0 = Some b
    /\ nth_error (app.new_total_curve 1000 heating_peak_rows 100 0) 0 = Some p
    /\ reading_eq p b.
Proof.
  refine (proj1 (proj2 (proj2 (zero_adoption 1000 heating_peak_rows 100 _))
                       0%nat _ eq_refl) _).
  - reflexivity.
  - discriminate.
Defined.

(** X4.  At adoption 1 every gas home converts, and on a profile produced
    by the simulation the projected value at each timestamp is the
    simulated total load after, times the number of homes, over the
    divisor. *)
Theorem full_adoption_is_simulated_total
        (unit_scale : Q) (df_ts : list IntervalRow) (n : Z) :
  0 < unit_scale ->
  app.num_converts n 1 = n
  /\ app.dashboard_converts n 100 = n
  /\ forall (t : nat) (p : ProfileRow),
       nth_error (analyze_single_home.stress_test df_ts) t = Some p ->
       exists v,
         nth_error (app.new_total_curve unit_scale
                      (analyze_single_home.stress_test df_ts) n 1) t = Some v
         /\ reading_eq v (scaled (total_load_after p) n unit_scale).
Proof.
  intros Hs. split; [apply num_converts_one|]. split.
  { unfold app.dashboard_converts, app.num_converts, py_int. simpl.
    apply Z.quot_mul. discriminate. }
  intros t p Ht.
  destruct (new_total_cell unit_scale _ n 1 t p Hs Ht) as [_ Hp].
  rewrite num_converts_one in Hp. eexists. split; [exact Hp|].
  unfold analyze_single_home.stress_test in Ht. rewrite nth_error_map in Ht.
  destruct (nth_error df_ts t) as [r|]; [|discriminate Ht].
  injection Ht as <-. simpl.
  destruct (electricity_total r) as [e|], (natural_gas_heating r) as [g|];
    simpl; try exact I.
  field. split; [discriminate|].
  intros E. rewrite E in Hs. discriminate Hs.
Qed.

(** Witness of [full_adoption_is_simulated_total]: the two sample
    intervals, 100 homes. *)
Lemma full_adoption_is_simulated_total_witness :
  0 < 1000
  /\ exists v,
       nth_error (app.new_total_curve 1000
                    (analyze_single_home.stress_test two_rows) 100 1) 0 = Some v
       /\ reading_eq v (scaled (Some (1 + 3 / 3)) 100 1000).
Proof.
  assert (H : 0 < 1000) by reflexivity.
  split; [exact H|].
  exact (proj2 (proj2 (full_adoption_is_simulated_total 1000 two_rows 100 H))
               0%nat
               (analyze_single_home.stress_row
                  (mkIntervalRow 1516060800 (Some 1) (Some 3)))
               eq_refl).
Defined.

(** ** The peak can only grow *)

Lemma baseline_le_projected_cell (r : ProfileRow) (n c : Z) (s v : Q) :
  0 < s -> (0 <= c)%Z -> hp_added_load r = Some v -> 0 <= v ->
  reading_le
    (rdiv (rmul (electricity r) (of_int n)) (Some s))
    (radd (rdiv (rmul (electricity r) (of_int n)) (Some s))
          (rdiv (rmul (hp_added_load r) (of_int c)) (Some s))).
Proof.
  intros Hs Hc Hadd Hv. rewrite !scale_cell by exact Hs. rewrite Hadd.
  destruct (electricity r) as [e|]; simpl; [|exact I].
  rewrite <- (Qplus_0_r (e * inject_Z n / s)) at 1.
  apply Qplus_le_r. unfold Qdiv. apply Qmult_le_0_compat.
  - apply Qmult_le_0_compat; [exact Hv|now apply inject_Z_nonneg].
  - apply Qlt_le_weak. now apply Qinv_lt_0_compat.
Qed.

Lemma old_peak_le_new_peak
      (unit_scale : Q) (df : list ProfileRow) (n : Z) (a : Q) :
  0 < unit_scale -> (0 <= n)%Z -> 0 <= a ->
  (forall r, In r df -> exists v, hp_added_load r = Some v /\ 0 <= v) ->
  reading_le (app.old_peak unit_scale df n) (app.new_peak unit_scale df n a).
Proof.
  intros Hs Hn Ha Hadd. unfold app.old_peak, app.new_peak. apply series_max_mono.
  unfold app.new_total_curve, app.baseline_curve, app.added_curve.
  rewrite series_add_map.
  assert (Hc : (0 <= app.num_converts n a)%Z).
  { unfold app.num_converts. rewrite py_int_floor.
    - change 0%Z with (Qfloor 0). apply Qfloor_resp_le.
      apply Qmult_le_0_compat; [now apply inject_Z_nonneg|exact Ha].
    - apply Qmult_le_0_compat; [now apply inject_Z_nonneg|exact Ha]. }
  induction df as [|r df IH]; simpl; constructor.
  - destruct (Hadd r (or_introl eq_refl)) as (v & Hv & Hv0).
    now apply baseline_le_projected_cell with v.
  - apply IH. intros r' Hin. apply Hadd. now right.
Qed.

(** X5.  When every added load is present and not negative, the peak after
    is never below the peak before (both are missing together), so the peak
    growth is never negative and the percentage shown is a number that is
    never negative. *)
Theorem peak_growth_nonnegative
        (unit_scale : Q) (df : list ProfileRow) (n : Z) (a : Q) :
  0 < unit_scale -> (0 <= n)%Z -> 0 <= a ->
  (forall r, In r df -> exists v, hp_added_load r = Some v /\ 0 <= v) ->
  reading_le (app.old_peak unit_scale df n) (app.new_peak unit_scale df n a)
  /\ (forall g, app.peak_growth unit_scale df n a = Some g -> 0 <= g)
  /\ exists pct, app.pct_increase unit_scale df n a = Some pct /\ 0 <= pct.
Proof.
  intros Hs Hn Ha Hadd.
  pose proof (old_peak_le_new_peak unit_scale df n a Hs Hn Ha Hadd) as Hle.
  split; [exact Hle|].
  unfold app.pct_increase, app.peak_growth, app.pct_of.
  destruct (app.old_peak unit_scale df n) as [p|],
           (app.new_peak unit_scale df n a) as [q|];
    simpl in Hle |- *; try contradiction.
  - assert (Hg : 0 <= q - p).
    { unfold Qminus. rewrite <- (Qplus_opp_r p). now apply Qplus_le_l. }
    split; [now intros g [= <-]|].
    destruct (Qle_bool p 0) eqn:Ep; simpl.
    + exists 0. split; [reflexivity|apply Qle_refl].
    + assert (Hp : 0 < p).
      { apply Qnot_le_lt. intros H. apply Qle_bool_iff in H. congruence. }
      rewrite (Qeq_bool_pos p Hp). eexists. split; [reflexivity|].
      apply Qmult_le_0_compat; [|discriminate].
      unfold Qdiv. apply Qmult_le_0_compat; [exact Hg|].
      apply Qlt_le_weak. now apply Qinv_lt_0_compat.
  - split; [discriminate|]. exists 0. split; [reflexivity|apply Qle_refl].
Qed.

(** Witness of [peak_growth_nonnegative]: the heating-peak frame, 100
    homes at 90 percent. *)
Lemma peak_growth_nonnegative_witness :
  exists pct, app.pct_increase 1000 heating_peak_rows 100 (9 # 10) = Some pct
              /\ 0 <= pct.
Proof.
  refine (proj2 (proj2 (peak_growth_nonnegative 1000 heating_peak_rows 100 (9 # 10)
                                                _ _ _ _))).
  - reflexivity.
  - discriminate.
  - discriminate.
  - intros r [<-|[<-|[]]]; eexists; (split; [reflexivity|discriminate]).
Defined.

(** ** The date window of [load_data] *)

Lemma filter_map_commute {A B : Type} (g : A -> B) (f : B -> bool) (l : list A) :
  filter f (map g l) = map g (filter (fun x => f (g x)) l).
Proof.
  induction l as [|x l IH]; simpl; [reflexivity|].
  destruct (f (g x)); simpl; now rewrite IH.
Qed.

Lemma filter_idempotent {A : Type} (f : A -> bool) (l : list A) :
  filter f (filter f l) = filter f l.
Proof.
  induction l as [|x l IH]; simpl; [reflexivity|].
  destruct (f x) eqn:E; simpl; [rewrite E|]; now rewrite IH.
Qed.

(** X6.  [load_data] keeps exactly the rows stamped from 2018-01-16 00:00:00
    to 2018-01-19 00:00:00, both included, so a reading later on 19 January
    is dropped; loading an already loaded profile changes nothing; and
    loading the simulated profile gives the simulation of the intervals
    that lie in the window. *)
Theorem load_data_window (profile : list ProfileRow) (df_ts : list IntervalRow) :
  (forall r, In r (app.load_data profile)
             <-> In r profile
                 /\ (app.start_date <= timestamp r <= app.end_date)%Z)
  /\ (forall r, (app.end_date < timestamp r)%Z -> ~ In r (app.load_data profile))
  /\ app.load_data (app.load_data profile) = app.load_data profile
  /\ app.load_data (analyze_single_home.stress_test df_ts)
     = analyze_single_home.stress_test
         (filter (fun r => (app.start_date <=? ts r)%Z && (ts r <=? app.end_date)%Z)
                 df_ts).
Proof.
  assert (Hin : forall r, In r (app.load_data profile)
                          <-> In r profile
                              /\ (app.start_date <= timestamp r <= app.end_date)%Z).
  { intros r. unfold app.load_data.
    rewrite filter_In, andb_true_iff, !Z.leb_le. reflexivity. }
  split; [exact Hin|]. split; [|split].
  - intros r Hlate Hr. apply Hin in Hr. lia.
  - apply filter_idempotent.
  - unfold app.load_data, analyze_single_home.stress_test.
    apply filter_map_commute.
Qed.

(** Witness of [load_data_window]: a reading of 2018-01-19 00:15 is not in
    the loaded profile. *)
Lemma load_data_window_witness :
  (app.end_date < 1516320900)%Z
  /\ ~ In (mkProfileRow 1516320900 (Some 1) (Some 3) (Some 1) (Some 2))
          (app.load_data
             [ mkProfileRow 1516320000 (Some 2) (Some 0) (Some 0) (Some 2);
               mkProfileRow 1516320900 (Some 1) (Some 3) (Some 1) (Some 2) ]).
Proof.
  assert (H : (app.end_date < 1516320900)%Z) by reflexivity.
  split; [exact H|].
  exact (proj1 (proj2 (load_data_window _ []))
               (mkProfileRow 1516320900 (Some 1) (Some 3) (Some 1) (Some 2)) H).
Defined.

(** ** Step 3 of [main]: locating the time series *)

Lemma locate_timeseries_cases (fs : FileSystem) :
  let a := analyze_single_home.path_a analyze_single_home.BY_STATE_ROOT "SC" in
  let b := analyze_single_home.path_b analyze_single_home.BY_STATE_ROOT "SC" in
  match fst (run analyze_single_home.locate_timeseries fs) with
  | Returned p =>
      fs_exists fs p = true
      /\ (p = a \/ (p = b /\ fs_exists fs a = false))
  | Raised exn =>
      exn = "SystemExit" /\ fs_exists fs a = false /\ fs_exists fs b = false
  end.
Proof.
  cbv zeta.
  unfold run, analyze_single_home.locate_timeseries,
    analyze_single_home.get_correct_timeseries_path,
    bind, io_exists, io_ls, io_print, io_print_list, ret.
  destruct (fs_exists fs (analyze_single_home.path_a
                            analyze_single_home.BY_STATE_ROOT "SC")) eqn:Ha.
  - simpl. split; [exact Ha|now left].
  - destruct (fs_exists fs (analyze_single_home.path_b
                              analyze_single_home.BY_STATE_ROOT "SC")) eqn:Hb.
    + simpl. split; [exact Hb|right; now split].
    + simpl. now repeat split.
Qed.

(** X7.  Step 3 of [main] either goes on with a path that exists in the
    bucket, the first layout when it exists and the second only when the
    first does not, or leaves with [SystemExit], which happens exactly when
    neither layout exists. *)
Theorem locate_timeseries_outcome (fs : FileSystem) :
  let a := analyze_single_home.path_a analyze_single_home.BY_STATE_ROOT "SC" in
  let b := analyze_single_home.path_b analyze_single_home.BY_STATE_ROOT "SC" in
  match fst (run analyze_single_home.locate_timeseries fs) with
  | Returned p =>
      fs_exists fs p = true
      /\ (p = a \/ (p = b /\ fs_exists fs a = false))
  | Raised exn =>
      exn = "SystemExit" /\ fs_exists fs a = false /\ fs_exists fs b = false
  end.
Proof.
  apply locate_timeseries_cases.
Qed.

(** * The metadata ingest of [pull_resstock_data.py] *)

Open Scope string_scope.

Lemma keep_step_chosen (df : DataFrame) (acc : list string) (c : string) :
  pull_resstock_data.keep_step df acc c
  = (acc ++ option_list (chosen_column df c))%list.
Proof.
  unfold pull_resstock_data.keep_step, chosen_column.
  destruct (has_column df c); [reflexivity|].
  destruct (String.eqb c "in.sqft" && has_column df "in.geometry_floor_area");
    [reflexivity|].
  destruct (String.eqb c "in.heating_fuel" && has_column df "in.hvac_heating_type");
    [reflexivity|].
  simpl. now rewrite app_nil_r.
Qed.

Lemma fold_keep_step (df : DataFrame) (cols acc : list string) :
  fold_left (pull_resstock_data.keep_step df) cols acc
  = (acc ++ flat_map (fun c => option_list (chosen_column df c)) cols)%list.
Proof.
  revert acc. induction cols as [|c cols IH]; intros acc; simpl.
  - now rewrite app_nil_r.
  - now rewrite IH, keep_step_chosen, <- app_assoc.
Qed.

Lemma final_cols_flat_map (df : DataFrame) :
  pull_resstock_data.final_cols df
  = flat_map (fun c => option_list (chosen_column df c))
             pull_resstock_data.cols_to_keep.
Proof.
  unfold pull_resstock_data.final_cols. now rewrite fold_keep_step.
Qed.

Lemma chosen_column_cases (df : DataFrame) (c x : string) :
  chosen_column df c = Some x ->
  has_column df x = true
  /\ (x = c
      \/ (c = "in.sqft" /\ x = "in.geometry_floor_area" /\ has_column df c = false)
      \/ (c = "in.heating_fuel" /\ x = "in.hvac_heating_type"
          /\ has_column df c = false)).
Proof.
  unfold chosen_column. destruct (has_column df c) eqn:Hc.
  - intros [= <-]. split; [exact Hc|now left].
  - destruct (String.eqb c "in.sqft") eqn:E1; simpl.
    + apply String.eqb_eq in E1.
      destruct (has_column df "in.geometry_floor_area") eqn:Ha.
      * intros [= <-]. split; [exact Ha|]. right. left. auto.
      * subst c. simpl. discriminate.
    + destruct (String.eqb c "in.heating_fuel") eqn:E2; simpl; [|discriminate].
      apply String.eqb_eq in E2.
      destruct (has_column df "in.hvac_heating_type") eqn:Hb; [|discriminate].
      intros [= <-]. split; [exact Hb|]. right. right. auto.
Qed.

Lemma in_final_cols (df : DataFrame) (x : string) :
  In x (pull_resstock_data.final_cols df)
  <-> exists c, In c pull_resstock_data.cols_to_keep /\ chosen_column df c = Some x.
Proof.
  rewrite final_cols_flat_map, in_flat_map. split.
  - intros (c & Hc & Hx). exists c. split; [exact Hc|].
    destruct (chosen_column df c); simpl in Hx; [|destruct Hx].
    destruct Hx as [<-|[]]. reflexivity.
  - intros (c & Hc & Hx). exists c. split; [exact Hc|]. rewrite Hx. now left.
Qed.

Lemma NoDup_flat_map_option {A B : Type} (f : A -> option B) (l : list A) :
  (forall a b x, In a l -> In b l -> f a = Some x -> f b = Some x -> a = b) ->
  NoDup l ->
  NoDup (flat_map (fun a => option_list (f a)) l).
Proof.
  intros Hinj Hnd. induction Hnd as [|a l Hnotin Hnd IH]; simpl; [constructor|].
  assert (IH' : NoDup (flat_map (fun a => option_list (f a)) l)).
  { apply IH. intros a' b x Ha Hb. apply Hinj; now right. }
  destruct (f a) as [x|] eqn:Ea; simpl; [|exact IH'].
  constructor; [|exact IH'].
  intros Hin. apply in_flat_map in Hin. destruct Hin as (b & Hb & Hx).
  destruct (f b) as [y|] eqn:Eb; simpl in Hx; [|destruct Hx].
  destruct Hx as [->|[]].
  assert (a = b) by (apply (Hinj a b x); [now left|now right|exact Ea|exact Eb]).
  subst b. contradiction.
Qed.

Lemma cols_to_keep_NoDup : NoDup pull_resstock_data.cols_to_keep.
Proof.
  unfold pull_resstock_data.cols_to_keep.
  repeat (constructor; [simpl; intuition discriminate|]). constructor.
Qed.

Lemma aliases_not_kept :
  ~ In "in.geometry_floor_area" pull_resstock_data.cols_to_keep
  /\ ~ In "in.hvac_heating_type" pull_resstock_data.cols_to_keep.
Proof.
  unfold pull_resstock_data.cols_to_keep. split; simpl; intuition discriminate.
Qed.

Lemma final_cols_NoDup (df : DataFrame) : NoDup (pull_resstock_data.final_cols df).
Proof.
  rewrite final_cols_flat_map.
  apply NoDup_flat_map_option; [|apply cols_to_keep_NoDup].
  intros a b x Ha Hb Hxa Hxb.
  destruct aliases_not_kept as [HA HB].
  pose proof (chosen_column_cases df a x Hxa) as [_ Ca].
  pose proof (chosen_column_cases df b x Hxb) as [_ Cb].
  destruct Ca as [Ea|[(Ea & Ex & _)|(Ea & Ex & _)]];
    destruct Cb as [Eb|[(Eb & Ey & _)|(Eb & Ey & _)]];
    subst; try reflexivity; try discriminate; contradiction.
Qed.

Lemma final_cols_present (df : DataFrame) :
  forallb (has_column df) (pull_resstock_data.final_cols df) = true.
Proof.
  apply forallb_forall. intros x Hx. apply in_final_cols in Hx.
  destruct Hx as (c & _ & Hx). now destruct (chosen_column_cases df c x Hx).
Qed.

(** X8.  The columns chosen for the saved table are all columns of the
    frame and no name is chosen twice, so selecting them never raises
    [KeyError]; at most nine are chosen. *)
Theorem final_cols_selectable (df : DataFrame) :
  Forall (fun c => has_column df c = true) (pull_resstock_data.final_cols df)
  /\ NoDup (pull_resstock_data.final_cols df)
  /\ (List.length (pull_resstock_data.final_cols df) <= 9)%nat
  /\ getitem_columns df (pull_resstock_data.final_cols df)
     = Returned (select_columns df (pull_resstock_data.final_cols df)).
Proof.
  pose proof (final_cols_present df) as Hp.
  split; [|split; [|split]].
  - apply Forall_forall. intros c Hc.
    now apply (proj1 (forallb_forall _ _) Hp).
  - apply final_cols_NoDup.
  - rewrite final_cols_flat_map. unfold pull_resstock_data.cols_to_keep. simpl.
    repeat (match goal with
            | |- context [chosen_column df ?c] => destruct (chosen_column df c)
            end; simpl); lia.
  - unfold getitem_columns. now rewrite Hp.
Qed.

(** X9.  A name of the keep list is saved exactly when the frame has it;
    the other name of the floor area (of the heating fuel) is saved exactly
    when the frame has it and lacks [in.sqft] ([in.heating_fuel]); nothing
    else is saved. *)
Theorem final_cols_alias_rule (df : DataFrame) (x : string) :
  In x (pull_resstock_data.final_cols df)
  <-> (In x pull_resstock_data.cols_to_keep /\ has_column df x = true)
      \/ (x = "in.geometry_floor_area" /\ has_column df x = true
          /\ has_column df "in.sqft" = false)
      \/ (x = "in.hvac_heating_type" /\ has_column df x = true
          /\ has_column df "in.heating_fuel" = false).
Proof.
  rewrite in_final_cols. split.
  - intros (c & Hc & Hx).
    destruct (chosen_column_cases df c x Hx)
      as [Hhas [->|[(-> & -> & Hno)|(-> & -> & Hno)]]]; auto.
  - intros [[Hk Hhas]|[(-> & Hhas & Hno)|(-> & Hhas & Hno)]].
    + exists x. split; [exact Hk|]. unfold chosen_column. now rewrite Hhas.
    + exists "in.sqft". split; [simpl; tauto|].
      unfold chosen_column. rewrite Hno. simpl. now rewrite Hhas.
    + exists "in.heating_fuel". split; [simpl; tauto|].
      unfold chosen_column. rewrite Hno. simpl. now rewrite Hhas.
Qed.

(** Witness of [final_cols_alias_rule]: the older release has no [in.sqft]
    column, so its floor-area column is saved under its own name. *)
Lemma final_cols_alias_rule_witness :
  In "in.geometry_floor_area" (pull_resstock_data.final_cols old_release).
Proof.
  apply (proj2 (final_cols_alias_rule old_release "in.geometry_floor_area")).
  right. left. repeat split.
Defined.

Lemma has_column_In (df : DataFrame) (c : string) :
  has_column df c = true <-> In c (columns df).
Proof.
  unfold has_column. rewrite existsb_exists. split.
  - intros (x & Hx & E). apply String.eqb_eq in E. now subst.
  - intros H. exists c. split; [exact H|apply String.eqb_refl].
Qed.

Lemma has_column_rename_index (df : DataFrame) :
  has_column df "index" = true ->
  has_column (pull_resstock_data.rename_index df) "bldg_id" = true.
Proof.
  rewrite !has_column_In. unfold pull_resstock_data.rename_index. simpl.
  intros H. apply in_map_iff. exists "index". split; [reflexivity|exact H].
Qed.

Lemma recover_bldg_id_cases (df : DataFrame) :
  (has_column df "bldg_id" = true
   /\ pull_resstock_data.recover_bldg_id df = Returned df)
  \/ (has_column df "bldg_id" = false /\ has_column df "index" = true
      /\ pull_resstock_data.recover_bldg_id df
         = Returned (pull_resstock_data.rename_index df))
  \/ (has_column df "bldg_id" = false /\ has_column df "index" = false
      /\ pull_resstock_data.recover_bldg_id df = Raised "SystemExit").
Proof.
  unfold pull_resstock_data.recover_bldg_id.
  destruct (has_column df "bldg_id") eqn:Hb.
  - left. split; [reflexivity|]. rewrite andb_false_r. now rewrite Hb.
  - right. destruct (has_column df "index") eqn:Hi; simpl.
    + left. now rewrite (has_column_rename_index df Hi).
    + right. now rewrite Hb.
Qed.

Lemma final_cols_head (df : DataFrame) :
  has_column df "bldg_id" = true ->
  hd_error (pull_resstock_data.final_cols df) = Some "bldg_id".
Proof.
  intros H. rewrite final_cols_flat_map.
  unfold pull_resstock_data.cols_to_keep. cbn [flat_map].
  unfold chosen_column at 1. now rewrite H.
Qed.

Lemma rename_index_rows (df : DataFrame) :
  List.length (rows (pull_resstock_data.rename_index df)) = List.length (rows df).
Proof.
  unfold pull_resstock_data.rename_index. simpl. apply length_map.
Qed.

Lemma main_saves (old_file : option DataFrame) (df df' : DataFrame) :
  pull_resstock_data.recover_bldg_id df = Returned df' ->
  pull_resstock_data.main old_file (Returned df)
  = (Returned tt, Some (select_columns df' (pull_resstock_data.final_cols df'))).
Proof.
  intros H. unfold pull_resstock_data.main. rewrite H.
  unfold getitem_columns. rewrite final_cols_present. now destruct old_file.
Qed.

(** X10.  Up to the final write, a run of the ingest ends normally or with
    [SystemExit], never with [KeyError].  It ends normally exactly when the
    table could be read and has a column [bldg_id] or [index]; the file then
    holds a table whose first column is [bldg_id] and which has one row per
    row read.  After every failed run the file is absent, whatever it held
    before. *)
Theorem ingest_outcome (old_file : option DataFrame) (dataset : py_result DataFrame) :
  let out := pull_resstock_data.main old_file dataset in
  (fst out = Returned tt \/ fst out = Raised "SystemExit")
  /\ (fst out = Returned tt
      <-> exists df, dataset = Returned df
                     /\ (has_column df "bldg_id" = true
                         \/ has_column df "index" = true))
  /\ (fst out = Raised "SystemExit" -> snd out = None)
  /\ (forall df, dataset = Returned df -> fst out = Returned tt ->
        exists df_clean,
          snd out = Some df_clean
          /\ hd_error (columns df_clean) = Some "bldg_id"
          /\ List.length (rows df_clean) = List.length (rows df)).
Proof.
  cbv zeta. destruct dataset as [df|exn].
  - destruct (recover_bldg_id_cases df) as [(Hb & Hr)|[(Hb & Hi & Hr)|(Hb & Hi & Hr)]].
    + rewrite (main_saves old_file df df Hr). simpl.
      split; [now left|]. split; [|split; [discriminate|]].
      * split; [intros _; exists df; auto|reflexivity].
      * intros df0 [= <-] _. eexists. split; [reflexivity|].
        split; [now apply final_cols_head|]. simpl. apply length_map.
    + rewrite (main_saves old_file df _ Hr). simpl.
      split; [now left|]. split; [|split; [discriminate|]].
      * split; [intros _; exists df; auto|reflexivity].
      * intros df0 [= <-] _. eexists. split; [reflexivity|]. split.
        -- apply final_cols_head. now apply has_column_rename_index.
        -- simpl. rewrite length_map. apply rename_index_rows.
    + unfold pull_resstock_data.main. rewrite Hr. simpl.
      split; [now right|]. split; [|split].
      * split; [discriminate|].
        intros (df0 & [= <-] & [H|H]); congruence.
      * intros _. now destruct old_file.
      * intros df0 _ H. discriminate H.
  - simpl. split; [now right|]. split; [|split].
    + split; [discriminate|]. intros (df0 & H & _). discriminate H.
    + intros _. now destruct old_file.
    + intros df0 H. discriminate H.
Qed.

(** Witness of [ingest_outcome]: an earlier file exists and the table
    cannot be read; the file is gone after the run. *)
Lemma ingest_outcome_witness :
  fst (pull_resstock_data.main (Some modest_county) (Raised "OSError"))
  = Raised "SystemExit"
  /\ snd (pull_resstock_data.main (Some modest_county) (Raised "OSError")) = None.
Proof.
  assert (H : fst (pull_resstock_data.main (Some modest_county) (Raised "OSError"))
              = Raised "SystemExit") by reflexivity.
  split; [exact H|].
  exact (proj1 (proj2 (proj2 (ingest_outcome (Some modest_county) (Raised "OSError"))))
               H).
Defined.

(** ** The saved table and the dashboard *)

Lemma get_selected (r : Row) (cols : list string) (c : string) :
  In c cols -> get (map (fun k => (k, get r k)) cols) c = get r c.
Proof.
  induction cols as [|k cols IH]; simpl; [intros []|].
  intros Hin. destruct (String.eqb k c) eqn:E.
  - apply String.eqb_eq in E. now subst.
  - destruct Hin as [->|Hin]; [now rewrite String.eqb_refl in E|now apply IH].
Qed.

Lemma has_column_select (df : DataFrame) (cols : list string) (c : string) :
  has_column (select_columns df cols) c = true <-> In c cols.
Proof.
  now rewrite has_column_In.
Qed.

Lemma bool_eq_iff (a b : bool) : (a = true <-> b = true) -> a = b.
Proof.
  destruct a, b; intros [H1 H2]; try reflexivity.
  - symmetry. now apply H1.
  - now apply H2.
Qed.

Lemma kept_heating_fuel (df : DataFrame) :
  has_column (select_columns df (pull_resstock_data.final_cols df)) "in.heating_fuel"
  = has_column df "in.heating_fuel".
Proof.
  apply bool_eq_iff. rewrite has_column_select, in_final_cols. split.
  - intros (c & _ & Hx).
    destruct (chosen_column_cases df c _ Hx) as [H _]. exact H.
  - intros H. exists "in.heating_fuel". split; [simpl; tauto|].
    unfold chosen_column. now rewrite H.
Qed.

Lemma kept_heating_type (df : DataFrame) :
  has_column df "in.heating_fuel" = false ->
  has_column (select_columns df (pull_resstock_data.final_cols df))
             "in.hvac_heating_type"
  = has_column df "in.hvac_heating_type".
Proof.
  intros Hno. apply bool_eq_iff. rewrite has_column_select, in_final_cols. split.
  - intros (c & _ & Hx).
    destruct (chosen_column_cases df c _ Hx) as [H _]. exact H.
  - intros H. exists "in.heating_fuel". split; [simpl; tauto|].
    unfold chosen_column. rewrite Hno. simpl. now rewrite H.
Qed.

(** X11.  The dashboard finds the same heating column and the same
    addressable market in the saved table as in the table it was cut from:
    the gas-heated rows of the saved table are the saved rows of the
    gas-heated ones, so the count of gas homes is unchanged. *)
Theorem cleaning_preserves_market (df : DataFrame) :
  let df_clean := select_columns df (pull_resstock_data.final_cols df) in
  app.heat_col df_clean = app.heat_col df
  /\ has_column df_clean (app.heat_col df_clean) = has_column df (app.heat_col df)
  /\ rows (app.gas_homes df_clean)
     = rows (select_columns (app.gas_homes df) (pull_resstock_data.final_cols df))
  /\ app.total_gas_homes df_clean = app.total_gas_homes df.
Proof.
  cbv zeta.
  assert (Hcol : app.heat_col (select_columns df (pull_resstock_data.final_cols df))
                 = app.heat_col df).
  { unfold app.heat_col. now rewrite kept_heating_fuel. }
  assert (Hhas : has_column (select_columns df (pull_resstock_data.final_cols df))
                            (app.heat_col df)
                 = has_column df (app.heat_col df)).
  { unfold app.heat_col. destruct (has_column df "in.heating_fuel") eqn:E.
    - now rewrite kept_heating_fuel.
    - now apply kept_heating_type. }
  assert (Hrows : rows (app.gas_homes
                          (select_columns df (pull_resstock_data.final_cols df)))
                  = rows (select_columns (app.gas_homes df)
                                         (pull_resstock_data.final_cols df))).
  { unfold app.gas_homes. rewrite Hcol, Hhas.
    destruct (has_column df (app.heat_col df)) eqn:E; [|reflexivity].
    assert (Hin : In (app.heat_col df) (pull_resstock_data.final_cols df)).
    { apply has_column_select with (df := df). now rewrite Hhas. }
    simpl. rewrite filter_map_commute. f_equal.
    apply filter_ext. intros r. unfold app.is_gas_heated.
    now rewrite get_selected. }
  split; [exact Hcol|]. split; [now rewrite Hcol|]. split; [exact Hrows|].
  unfold app.total_gas_homes. rewrite Hrows. simpl. now rewrite length_map.
Qed.

(** * The sidebar and the page of [app.py] *)

Lemma in_dropna (column : list cell) (v : string) :
  In v (app.dropna column) <-> In (Some v) column.
Proof.
  induction column as [|[w|] column IH]; simpl.
  - reflexivity.
  - rewrite IH. split; intros [H|H]; auto; left; congruence.
  - rewrite IH. split; [auto|]. intros [H|H]; [discriminate H|exact H].
Qed.

Lemma in_unique (values : list string) (v : string) :
  In v (app.unique values) <-> In v values.
Proof.
  induction values as [|w values IH]; simpl; [reflexivity|].
  rewrite filter_In, IH, negb_true_iff, String.eqb_neq.
  destruct (String.eqb_spec w v) as [->|Hne]; [tauto|]. tauto.
Qed.

Lemma unique_NoDup (values : list string) : NoDup (app.unique values).
Proof.
  induction values as [|w values IH]; simpl; constructor.
  - rewrite filter_In, negb_true_iff, String.eqb_neq. intros [_ H]. now apply H.
  - now apply NoDup_filter.
Qed.

Lemma in_insert_sorted (v w : string) (l : list string) :
  In w (app.insert_sorted v l) <-> w = v \/ In w l.
Proof.
  induction l as [|x l IH]; simpl.
  - split; intros [H|H]; auto.
  - destruct (String.leb v x); simpl; [split; intros [H|H]; auto|].
    rewrite IH. tauto.
Qed.

Lemma in_sorted (values : list string) (v : string) :
  In v (app.sorted values) <-> In v values.
Proof.
  induction values as [|w values IH]; simpl; [reflexivity|].
  rewrite in_insert_sorted, IH. split; intros [H|H]; auto.
Qed.

Lemma insert_sorted_NoDup (v : string) (l : list string) :
  ~ In v l -> NoDup l -> NoDup (app.insert_sorted v l).
Proof.
  induction l as [|x l IH]; simpl; intros Hv Hl.
  - constructor; [intros []|constructor].
  - destruct (String.leb v x).
    + constructor; [exact Hv|exact Hl].
    + inversion Hl as [|? ? Hx Hl']; subst. constructor.
      * rewrite in_insert_sorted. intros [->|H]; [apply Hv; now left|contradiction].
      * apply IH; [intros H; apply Hv; now right|exact Hl'].
Qed.

Lemma sorted_NoDup (values : list string) :
  NoDup values -> NoDup (app.sorted values).
Proof.
  induction 1 as [|v values Hv Hnd IH]; simpl; [constructor|].
  apply insert_sorted_NoDup; [now rewrite in_sorted|exact IH].
Qed.

Lemma insert_sorted_ascending (v : string) (l : list string) :
  ascending l -> ascending (app.insert_sorted v l).
Proof.
  unfold ascending. induction l as [|x l IH]; simpl; intros Hl.
  - repeat constructor.
  - destruct (String.leb v x) eqn:E.
    + constructor; [exact Hl|constructor; exact E].
    + inversion Hl as [|? ? Hl' Hhd]; subst.
      assert (Hxv : String.leb x v = true).
      { destruct (String.leb_total v x) as [H|H]; [congruence|exact H]. }
      constructor; [now apply IH|].
      destruct l as [|y l]; simpl.
      * constructor. exact Hxv.
      * destruct (String.leb v y); constructor; [exact Hxv|].
        inversion Hhd; subst. assumption.
Qed.

Lemma sorted_ascending (values : list string) : ascending (app.sorted values).
Proof.
  induction values as [|v values IH]; simpl.
  - constructor.
  - now apply insert_sorted_ascending.
Qed.

Lemma in_counties (df_meta : DataFrame) (c : string) :
  In c (app.counties df_meta)
  <-> exists r, In r (rows df_meta) /\ get r "in.county" = Some c.
Proof.
  unfold app.counties. rewrite in_sorted, in_unique, in_dropna, in_map_iff.
  split; intros (r & H1 & H2); exists r; auto.
Qed.

(** X12.  The county list of the sidebar is in ascending order without
    repetition and holds exactly the county names that occur in the
    metadata; picking any entry of it gives a county frame that is not
    empty and whose rows all carry that county. *)
Theorem county_list (df_meta : DataFrame) :
  ascending (app.counties df_meta)
  /\ NoDup (app.counties df_meta)
  /\ (forall c, In c (app.counties df_meta)
                <-> exists r, In r (rows df_meta) /\ get r "in.county" = Some c)
  /\ forall picked c,
       app.selectbox (app.counties df_meta) picked = Some c ->
       rows (app.county_homes df_meta (Some c)) <> []
       /\ forall r, In r (rows (app.county_homes df_meta (Some c)))
                    <-> In r (rows df_meta) /\ get r "in.county" = Some c.
Proof.
  split; [apply sorted_ascending|].
  split; [apply sorted_NoDup, unique_NoDup|].
  split; [apply in_counties|].
  intros picked c Hpick.
  assert (Hrows : forall r, In r (rows (app.county_homes df_meta (Some c)))
                            <-> In r (rows df_meta) /\ get r "in.county" = Some c).
  { intros r. unfold app.county_homes. simpl. rewrite filter_In.
    unfold app.cell_is. destruct (get r "in.county") as [s|].
    - rewrite String.eqb_eq. split; intros [H1 H2]; split; congruence.
    - split; intros [_ H]; discriminate H. }
  split; [|exact Hrows].
  apply nth_error_In in Hpick. apply in_counties in Hpick.
  destruct Hpick as (r & Hr & Hc).
  intros E. assert (Hin : In r (rows (app.county_homes df_meta (Some c))))
    by (apply Hrows; now split).
  rewrite E in Hin. destruct Hin.
Qed.

(** Witness of [county_list]: the first entry of the list of the older
    release. *)
Lemma county_list_witness :
  app.selectbox (app.counties old_release) 0 = Some "G4500450"
  /\ rows (app.county_homes old_release (Some "G4500450")) <> [].
Proof.
  assert (H : app.selectbox (app.counties old_release) 0 = Some "G4500450")
    by reflexivity.
  split; [exact H|].
  exact (proj1 (proj2 (proj2 (proj2 (county_list old_release))) 0%nat "G4500450" H)).
Defined.







(** ** County by county *)

Lemma filter_commute {A : Type} (f g : A -> bool) (l : list A) :
  filter f (filter g l) = filter g (filter f l).
Proof.
  induction l as [|x l IH]; simpl; [reflexivity|].
  destruct (g x) eqn:Eg, (f x) eqn:Ef; simpl; rewrite ?Eg, ?Ef, IH; reflexivity.
Qed.

Lemma filter_length_le {A : Type} (f : A -> bool) (l : list A) :
  (List.length (filter f l) <= List.length l)%nat.
Proof.
  induction l as [|x l IH]; simpl; [lia|]. destruct (f x); simpl; lia.
Qed.

Lemma gas_homes_county_commute (df_meta : DataFrame) (selected_county : option string) :
  rows (app.gas_homes (app.county_homes df_meta selected_county))
  = rows (app.county_homes (app.gas_homes df_meta) selected_county).
Proof.
  unfold app.gas_homes, app.heat_col, app.county_homes, has_column.
  cbn [select_rows columns rows].
  destruct (existsb (String.eqb "in.heating_fuel") (columns df_meta));
    [destruct (existsb (String.eqb "in.heating_fuel") (columns df_meta))
    |destruct (existsb (String.eqb "in.hvac_heating_type") (columns df_meta))];
    cbn [select_rows columns rows empty_frame filter];
    try apply filter_commute; reflexivity.
Qed.

(** X14.  Restricting to a county and restricting to gas-heated homes can
    be done in either order: the addressable market of a county is the part
    of the whole addressable market that lies in the county, so a county
    never has more eligible homes than the whole table. *)
Theorem market_by_county (df_meta : DataFrame) (selected_county : option string) :
  rows (app.gas_homes (app.county_homes df_meta selected_county))
  = rows (app.county_homes (app.gas_homes df_meta) selected_county)
  /\ (app.total_gas_homes (app.county_homes df_meta selected_county)
      <= app.total_gas_homes df_meta)%Z.
Proof.
  pose proof (gas_homes_county_commute df_meta selected_county) as H.
  split; [exact H|].
  unfold app.total_gas_homes. rewrite H. unfold app.county_homes.
  cbn [select_rows rows]. apply Nat2Z.inj_le. apply filter_length_le.
Qed.

Lemma list_sum_map_add {A : Type} (f g : A -> nat) (l : list A) :
  list_sum (map (fun x => f x + g x)%nat l)
  = (list_sum (map f l) + list_sum (map g l))%nat.
Proof.
  induction l as [|x l IH]; simpl; [reflexivity|]. rewrite IH. lia.
Qed.

Lemma list_sum_zero {A : Type} (f : A -> nat) (l : list A) :
  (forall x, In x l -> f x = 0%nat) -> list_sum (map f l) = 0%nat.
Proof.
  induction l as [|x l IH]; simpl; [reflexivity|]. intros H.
  rewrite (H x (or_introl eq_refl)), IH; [reflexivity|].
  intros y Hy. apply H. now right.
Qed.

Lemma list_sum_indicator (c0 : string) (cs : list string) :
  NoDup cs -> In c0 cs ->
  list_sum (map (fun c => if String.eqb c0 c then 1 else 0)%nat cs) = 1%nat.
Proof.
  induction 1 as [|c cs Hc Hnd IH]; simpl; [intros []|].
  intros [->|Hin].
  - rewrite String.eqb_refl. rewrite list_sum_zero; [reflexivity|].
    intros x Hx. destruct (String.eqb_spec c0 x) as [->|_]; [contradiction|reflexivity].
  - destruct (String.eqb_spec c0 c) as [->|_]; [contradiction|]. now apply IH.
Qed.

Lemma county_split_count (cs : list string) (l : list Row) :
  NoDup cs ->
  (forall r c, In r l -> get r "in.county" = Some c -> In c cs) ->
  list_sum (map (fun c => List.length
                            (filter (fun r => app.cell_is (get r "in.county") (Some c)) l))
                cs)
  = List.length (filter (fun r => match get r "in.county" with
                                  | Some _ => true
                                  | None => false
                                  end) l).
Proof.
  intros Hnd. induction l as [|r l IH]; intros Hall.
  - simpl. apply list_sum_zero. reflexivity.
  - assert (IH' := IH (fun r' c Hr => Hall r' c (or_intror Hr))).
    transitivity
      (list_sum (map (fun c => (if app.cell_is (get r "in.county") (Some c)
                                then 1 else 0)
                               + List.length
                                   (filter (fun r' => app.cell_is (get r' "in.county")
                                                                  (Some c)) l))%nat
                     cs)).
    { f_equal. apply map_ext. intros c. simpl.
      now destruct (app.cell_is (get r "in.county") (Some c)). }
    rewrite list_sum_map_add, IH'. simpl.
    destruct (get r "in.county") as [c0|] eqn:E; simpl.
    + rewrite list_sum_indicator; [reflexivity|exact Hnd|].
      apply (Hall r c0); [now left|exact E].
    + rewrite list_sum_zero; reflexivity.
Qed.

Lemma gas_homes_rows_incl (df : DataFrame) (r : Row) :
  In r (rows (app.gas_homes df)) -> In r (rows df).
Proof.
  unfold app.gas_homes.
  destruct (has_column df (app.heat_col df)); simpl; [|intros []].
  intros H. now apply filter_In in H.
Qed.

(** X15.  The eligible counts of the counties of the sidebar add up to the
    number of gas-heated homes of the whole table that carry a county: no
    such home is counted under two counties and none is left out. *)
Theorem counties_partition_market (df_meta : DataFrame) :
  list_sum (map (fun c => List.length
                            (rows (app.gas_homes (app.county_homes df_meta (Some c)))))
                (app.counties df_meta))
  = List.length (filter (fun r => match get r "in.county" with
                                  | Some _ => true
                                  | None => false
                                  end)
                        (rows (app.gas_homes df_meta))).
Proof.
  rewrite <- (county_split_count (app.counties df_meta)
                                 (rows (app.gas_homes df_meta))).
  - f_equal. apply map_ext. intros c.
    now rewrite gas_homes_county_commute.
  - apply sorted_NoDup, unique_NoDup.
  - intros r c Hr Hc. apply in_counties. exists r. split; [|exact Hc].
    now apply gas_homes_rows_incl.
Qed.

(** * Steps 1 to 5 of [analyze_single_home.main] *)

Open Scope Q_scope.



Lemma contains_gas_iff (c : cell) :
  str_contains ["Gas"] false false c = true
  <-> exists text, c = Some text /\ occurs_in_nocase "Gas" text.
Proof.
  unfold str_contains. destruct c as [text|].
  - rewrite re_search_occurs_nocase. split.
    + intros (pat & [<-|[]] & H). now exists text.
    + intros (text' & [= <-] & H). exists "Gas". split; [now left|exact H].
  - split; [discriminate|]. intros (text & H & _). discriminate H.
Qed.





(** X17.  Every home that passes the fuel test of [analyze_single_home]
    belongs to the addressable market of the dashboard, which also takes
    propane: a heating text that names propane and not gas is in the market
    and never makes a target. *)
Theorem target_fuel_in_market :
  (forall (heat_col sqft_col : string) (r : analyze_single_home.MetaRow),
      analyze_single_home.is_target heat_col sqft_col r = true ->
      app.is_gas_heated heat_col (analyze_single_home.text_cells r) = true)
  /\ (forall (heat_col sqft_col : string) (r : analyze_single_home.MetaRow) (text : string),
         get (analyze_single_home.text_cells r) heat_col = Some text ->
         occurs_in_nocase "Propane" text -> ~ occurs_in_nocase "Gas" text ->
         app.is_gas_heated heat_col (analyze_single_home.text_cells r) = true
         /\ analyze_single_home.is_target heat_col sqft_col r = false).
Proof.
  split.
  - intros heat_col sqft_col r H. unfold analyze_single_home.is_target in H.
    apply andb_true_iff in H. destruct H as [Hgas _].
    apply contains_gas_iff in Hgas. destruct Hgas as (text & Ht & Hg).
    apply is_gas_heated_iff. exists text. split; [exact Ht|now left].
  - intros heat_col sqft_col r text Ht Hp Hng. split.
    + apply is_gas_heated_iff. exists text. split; [exact Ht|now right].
    + unfold analyze_single_home.is_target.
      destruct (str_contains ["Gas"] false false
                             (get (analyze_single_home.text_cells r) heat_col)) eqn:E;
        [|reflexivity].
      apply contains_gas_iff in E. destruct E as (text' & Ht' & Hg).
      rewrite Ht in Ht'. injection Ht' as <-. contradiction.
Qed.

(** Witness of [target_fuel_in_market]: the large gas home of the three is
    in the market. *)
Lemma target_fuel_in_market_witness :
  app.is_gas_heated "in.heating_fuel"
    [("bldg_id", Some "43"); ("in.heating_fuel", Some "Natural Gas")] = true.
Proof.
  apply (proj1 target_fuel_in_market "in.heating_fuel" "in.sqft"
               (analyze_single_home.mkMetaRow
                  [("bldg_id", Some "43"); ("in.heating_fuel", Some "Natural Gas")]
                  [("in.sqft", Some (2900%Q))])).
  reflexivity.
Defined.

(** X18.  [main] saves a profile only when every step succeeded: the
    metadata file was found, a target was picked, one of the two layouts
    exists in the bucket and the search under it matched a file; the saved
    profile is then the stress test of the first matched file, one row per
    interval read.  A missing metadata file ends the run with
    [SystemExit]; with neither layout in the bucket, or with a search that
    matches nothing, no profile is saved. *)
Theorem main_outcome
        (metadata_csv : option analyze_single_home.MetaFrame)
        (s3 : analyze_single_home.Bucket) :
  (forall profile,
      analyze_single_home.main metadata_csv s3 = Returned profile ->
      exists df_meta target_home ts_path remote_file others,
        metadata_csv = Some df_meta
        /\ analyze_single_home.select_target df_meta = Returned target_home
        /\ fs_exists (analyze_single_home.bucket_fs s3) ts_path = true
        /\ analyze_single_home.bucket_glob s3
             (ts_path ++ "/*"
              ++ analyze_single_home.astype_str
                   (get (analyze_single_home.text_cells target_home) "bldg_id")
              ++ "*.parquet")%string
           = remote_file :: others
        /\ profile = analyze_single_home.stress_test
                       (analyze_single_home.bucket_parquet s3 remote_file)
        /\ List.length profile
           = List.length (analyze_single_home.bucket_parquet s3 remote_file))
  /\ (metadata_csv = None ->
      analyze_single_home.main metadata_csv s3 = Raised "SystemExit")
  /\ (fs_exists (analyze_single_home.bucket_fs s3)
                (analyze_single_home.path_a analyze_single_home.BY_STATE_ROOT "SC")
      = false ->
      fs_exists (analyze_single_home.bucket_fs s3)
                (analyze_single_home.path_b analyze_single_home.BY_STATE_ROOT "SC")
      = false ->
      forall profile, analyze_single_home.main metadata_csv s3 <> Returned profile)
  /\ ((forall pattern, analyze_single_home.bucket_glob s3 pattern = []) ->
      forall profile, analyze_single_home.main metadata_csv s3 <> Returned profile).
Proof.
  unfold analyze_single_home.main.
  pose proof (locate_timeseries_cases (analyze_single_home.bucket_fs s3)) as Hloc.
  cbv zeta in Hloc.
  destruct metadata_csv as [df_meta|].
  2:{ split; [discriminate|].
      split; [reflexivity|]. split; [discriminate|discriminate]. }
  destruct (analyze_single_home.select_target df_meta) as [target_home|e1] eqn:Et.
  2:{ split; [discriminate|]. split; [discriminate|]. split; discriminate. }
  destruct (fst (run analyze_single_home.locate_timeseries
                     (analyze_single_home.bucket_fs s3))) as [ts_path|e2].
  2:{ split; [discriminate|]. split; [discriminate|]. split; discriminate. }
  destruct Hloc as [Hex Hwhich].
  destruct (analyze_single_home.bucket_glob s3 _) as [|remote_file others] eqn:Eg.
  { split; [discriminate|]. split; [discriminate|]. split; discriminate. }
  split.
  { intros profile [= <-].
    exists df_meta, target_home, ts_path, remote_file, others.
    split; [reflexivity|]. split; [exact Et|]. split; [exact Hex|].
    split; [exact Eg|]. split; [reflexivity|].
    unfold analyze_single_home.stress_test. apply length_map. }
  split; [discriminate|]. split.
  - intros Ha Hb. exfalso.
    destruct Hwhich as [->|[-> _]]; congruence.
  - intros Hglob. rewrite Hglob in Eg. discriminate Eg.
Qed.

(** Witness of [main_outcome]: the three homes and a bucket in which
    nothing exists; no profile is saved. *)
Lemma main_outcome_witness :
  fs_exists bare_fs
            (analyze_single_home.path_a analyze_single_home.BY_STATE_ROOT "SC") = false
  /\ analyze_single_home.main (Some three_homes)
       (analyze_single_home.mkBucket bare_fs (fun _ => []) (fun _ => []))
     <> Returned [].
Proof.
  split; [reflexivity|].
  apply (proj1 (proj2 (proj2
           (main_outcome (Some three_homes)
              (analyze_single_home.mkBucket bare_fs (fun _ => []) (fun _ => [])))))).
  - reflexivity.
  - reflexivity.
Defined.

(** * The table under the chart *)

Lemma high_risk_rows_incl (gas : DataFrame) (r : Row) :
  In r (rows (fst (app.high_risk gas))) -> In r (rows gas).
Proof.
  unfold app.high_risk. destruct (has_column gas "in.income"); [|trivial].
  destruct (negb (is_empty (select_rows gas app.is_high_income))); [|trivial].
  simpl. intros H. now apply filter_In in H.
Qed.

(** X19.  The table under the chart never has more than 50 rows, nor more
    rows than the high-priority list; its columns are exactly the names of
    the display list that the gas-home frame has, in the order of that
    list; its rows are the first rows of the high-priority list cut down to
    those columns; and every home on the high-priority list is a gas-heated
    home, whichever notice is shown. *)
Theorem displayed_table (gas : DataFrame) :
  (List.length (rows (app.displayed gas)) <= 50)%nat
  /\ (List.length (rows (app.displayed gas))
      <= List.length (rows (fst (app.high_risk gas))))%nat
  /\ columns (app.displayed gas) = filter (has_column gas) app.display_cols
  /\ (forall c, In c (columns (app.displayed gas))
                <-> In c app.display_cols /\ has_column gas c = true)
  /\ rows (app.displayed gas)
     = map (fun r => map (fun c => (c, get r c)) (columns (app.displayed gas)))
           (firstn 50 (rows (fst (app.high_risk gas))))
  /\ (forall r, In r (rows (fst (app.high_risk gas))) -> In r (rows gas)).
Proof.
  assert (Hcols : columns (app.displayed gas) = filter (has_column gas) app.display_cols).
  { unfold app.displayed, head, select_columns. cbn [columns].
    apply filter_ext. intros c. unfold has_column.
    now rewrite high_risk_columns. }
  split; [|split; [|split; [exact Hcols|split; [|split]]]].
  - unfold app.displayed, head. cbn [rows]. rewrite length_firstn. lia.
  - unfold app.displayed, head, select_columns. cbn [rows].
    rewrite length_firstn, length_map. lia.
  - intros c. rewrite Hcols. apply filter_In.
  - unfold app.displayed, head, select_columns. cbn [rows columns].
    now rewrite firstn_map.
  - apply high_risk_rows_incl.
Qed.

(** * The simulated profile and the metrics *)

Open Scope Q_scope.

(** X20.  The simulation only adds columns: dropping the two derived
    columns of the saved profile gives back the interval frame that was
    read, timestamp by timestamp.  Where the gas-heating reading is not
    negative the added load is not negative and the total load is at least
    the electricity reading. *)
Theorem simulation_adds_columns (df_ts : list IntervalRow) :
  map measured (analyze_single_home.stress_test df_ts) = df_ts
  /\ map timestamp (analyze_single_home.stress_test df_ts) = map ts df_ts
  /\ forall p e g,
       In p (analyze_single_home.stress_test df_ts) ->
       electricity p = Some e -> gas_heating p = Some g -> 0 <= g ->
       exists added total,
         hp_added_load p = Some added /\ 0 <= added
         /\ total_load_after p = Some total /\ e <= total.
Proof.
  unfold analyze_single_home.stress_test. split; [|split].
  - rewrite map_map. rewrite <- (map_id df_ts) at 2. apply map_ext.
    intros [t e g]. reflexivity.
  - rewrite map_map. reflexivity.
  - intros p e g Hp He Hg Hg0. apply in_map_iff in Hp.
    destruct Hp as (r & <- & _). simpl in He, Hg |- *. rewrite He, Hg. simpl.
    assert (Hadd : 0 <= g / analyze_single_home.COP).
    { unfold Qdiv. apply Qmult_le_0_compat; [exact Hg0|discriminate]. }
    eexists. eexists. split; [reflexivity|]. split; [exact Hadd|].
    split; [reflexivity|].
    rewrite <- (Qplus_0_r e) at 1. now apply Qplus_le_r.
Qed.

(** Witness of [simulation_adds_columns]: the first sample interval. *)
Lemma simulation_adds_columns_witness :
  exists added total,
    hp_added_load (analyze_single_home.stress_row
                     (mkIntervalRow 1516060800 (Some 1) (Some 3))) = Some added
    /\ 0 <= added
    /\ total_load_after (analyze_single_home.stress_row
                           (mkIntervalRow 1516060800 (Some 1) (Some 3))) = Some total
    /\ 1 <= total.
Proof.
  refine (proj2 (proj2 (simulation_adds_columns two_rows))
                (analyze_single_home.stress_row
                   (mkIntervalRow 1516060800 (Some 1) (Some 3)))
                1 3 _ eq_refl eq_refl _).
  - left. reflexivity.
  - discriminate.
Defined.

(** X21.  The four figures of the metrics row agree with each other:
    when both peaks are present the peak before plus the peak growth is the
    peak after, and when the peak before is positive the peak after is the
    peak before raised by the percentage shown. *)
Theorem metrics_agree
        (unit_scale : Q) (df : list ProfileRow) (n : Z) (a : Q) (before after : Q) :
  app.old_peak unit_scale df n = Some before ->
  app.new_peak unit_scale df n a = Some after ->
  (exists growth,
      app.peak_growth unit_scale df n a = Some growth
      /\ before + growth == after)
  /\ (0 < before ->
      exists pct,
        app.pct_increase unit_scale df n a = Some pct
        /\ before * (1 + pct / 100) == after).
Proof.
  intros Hb Ha. unfold app.pct_increase, app.peak_growth. rewrite Hb, Ha. simpl.
  split.
  - eexists. split; [reflexivity|]. ring.
  - intros Hpos. unfold app.pct_of. rewrite (rgt0_pos before Hpos).
    rewrite rdiv_pos by exact Hpos. simpl. eexists. split; [reflexivity|].
    field. intros E. rewrite E in Hpos. discriminate Hpos.
Qed.

(** Witness of [metrics_agree]: the heating-peak frame, 100 homes at 90
    percent. *)
Lemma metrics_agree_witness :
  exists before after growth,
    app.old_peak 1000 heating_peak_rows 100 = Some before
    /\ app.new_peak 1000 heating_peak_rows 100 (9 # 10) = Some after
    /\ app.peak_growth 1000 heating_peak_rows 100 (9 # 10) = Some growth
    /\ before + growth == after.
Proof.
  destruct (app.old_peak 1000 heating_peak_rows 100) as [before|] eqn:Eb;
    [|vm_compute in Eb; discriminate Eb].
  destruct (app.new_peak 1000 heating_peak_rows 100 (9 # 10)) as [after|] eqn:Ea;
    [|vm_compute in Ea; discriminate Ea].
  destruct (proj1 (metrics_agree 1000 heating_peak_rows 100 (9 # 10) before after Eb Ea))
    as (growth & Hg & Hsum).
  exists before, after, growth. repeat split; assumption.
Defined.
